(** * init_project.py: the project skeleton builder

    A shallow embedding of [skills/python-clean-code/scripts/init_project.py]
    and the properties of [create_project].

    - Python [str] values are [string]s (the bytes of their UTF-8 encoding;
      every character the program inspects, the hyphen, the slash, the dot
      and the letters of [src], is ASCII, so working on bytes agrees with
      working on code points).
    - [pathlib.Path] values are records of a root and a list of components,
      with [/], [str] and [parent] as [PurePosixPath] defines them.
    - The file system is a finite map from canonical absolute paths to
      nodes (a directory, or a regular file with its content).  Path
      resolution walks the map component by component, as the kernel does;
      [mkdir], [exists], [is_dir] and [write_text] follow [pathlib] and
      raise the [OSError] subclasses the real calls raise.  The model has no
      symbolic links, permissions, length limits or resource exhaustion.
    - Code that touches the file system lives in a state-and-exception
      monad [M]: a run returns the file system it leaves behind together
      with either a value or the exception raised, so that a failure part
      way through keeps the partial tree, as the program does.
    - The closing [print] calls write to standard output only; they are not
      part of the file-system state and are left out. *)

From Stdlib Require Import Ascii.
From Stdlib Require String.
From stdpp Require Import gmap strings list fin_maps.

(* ===================================================================== *)
(** * Strings                                                             *)
(* ===================================================================== *)

Module Str.

(** The double quote, which a string literal of this file cannot hold. *)
Definition dq : ascii := ascii_of_nat 34.
Definition nl : ascii := ascii_of_nat 10.
Definition tab : ascii := ascii_of_nat 9.

Fixpoint map (f : ascii → ascii) (s : string) : string :=
  match s with
  | EmptyString => EmptyString
  | String c rest => String (f c) (map f rest)
  end.

(** Template text is written with a backquote wherever the Python source
    has a double quote; [py] puts the double quotes back.  No template of
    the program contains a backquote of its own. *)
Definition unquote (c : ascii) : ascii :=
  if Ascii.eqb c "`" then dq else c.
Definition py (s : string) : string := map unquote s.

(** The lines of a triple-quoted literal, each closed by a newline. *)
Fixpoint unlines (ls : list string) : string :=
  match ls with
  | [] => EmptyString
  | l :: rest => l +:+ String nl (unlines rest)
  end.

(** [sub in s] *)
Fixpoint contains (sub s : string) : bool :=
  String.prefix sub s ||
  match s with
  | EmptyString => false
  | String _ rest => contains sub rest
  end.

(** [s.replace(old, new)] for a non-empty [old]: leftmost occurrences,
    not overlapping.  [skip] counts the characters of a matched
    occurrence still to be dropped. *)
Fixpoint replace_go (old new : string) (skip : nat) (s : string) : string :=
  match s with
  | EmptyString => EmptyString
  | String c rest =>
      match skip with
      | S k => replace_go old new k rest
      | O =>
          if String.prefix old s
          then new +:+ replace_go old new (String.length old - 1) rest
          else String c (replace_go old new 0 rest)
      end
  end.
Definition replace (old new s : string) : string := replace_go old new 0 s.

(** [s.split("/")] *)
Fixpoint split_slash (s : string) : list string :=
  match s with
  | EmptyString => [EmptyString]
  | String c rest =>
      if Ascii.eqb c "/" then EmptyString :: split_slash rest
      else match split_slash rest with
           | [] => [String c EmptyString]
           | h :: t => String c h :: t
           end
  end.

(** ["/".join(parts)] *)
Fixpoint join_slash (ps : list string) : string :=
  match ps with
  | [] => EmptyString
  | [p] => p
  | p :: rest => p +:+ "/" +:+ join_slash rest
  end.

Definition kwarg (kwargs : list (string * string)) (key : string) : string :=
  match List.find (λ kv, String.eqb (fst kv) key) kwargs with
  | Some kv => snd kv
  | None => EmptyString
  end.

(** [template.format(key=value, ...)] for templates whose replacement fields are
    plain names in braces, which is all the program's templates have:
    every field is replaced by its argument, taken verbatim.  [field] is
    the name read so far inside an open brace. *)
Fixpoint format_go (kwargs : list (string * string)) (field : option string)
    (s : string) : string :=
  match s with
  | EmptyString => EmptyString
  | String c rest =>
      match field with
      | None =>
          if Ascii.eqb c "{" then format_go kwargs (Some EmptyString) rest
          else String c (format_go kwargs None rest)
      | Some key =>
          if Ascii.eqb c "}" then kwarg kwargs key +:+ format_go kwargs None rest
          else format_go kwargs (Some (key +:+ String c EmptyString)) rest
      end
  end.
Definition format (template : string) (kwargs : list (string * string)) : string :=
  format_go kwargs None template.

End Str.

(* ===================================================================== *)
(** * Templates                                                           *)
(* ===================================================================== *)

Definition PYPROJECT_TEMPLATE : string := Str.py (Str.unlines [
  "[project]";
  "name = `{name}`";
  "version = `0.1.0`";
  "description = ``";
  "requires-python = `>=3.11`";
  "dependencies = []";
  "";
  "[project.optional-dependencies]";
  "dev = [`pytest`, `ruff`, `mypy`]";
  "";
  "[tool.ruff]";
  "line-length = 100";
  "target-version = `py311`";
  "";
  "[tool.ruff.lint]";
  "select = [`E`, `F`, `I`, `UP`, `B`, `SIM`]";
  "";
  "[tool.mypy]";
  "strict = true";
  "python_version = `3.11`";
  "";
  "[tool.pytest.ini_options]";
  "testpaths = [`tests`]";
  "pythonpath = [`src`]"
]).

Definition MAKEFILE_TEMPLATE : string := Str.py (Str.unlines [
  ".PHONY: install test lint format typecheck all";
  "";
  "install:";
  String Str.tab "uv sync";
  "";
  "test:";
  String Str.tab "uv run pytest";
  "";
  "lint:";
  String Str.tab "uv run ruff check src tests";
  "";
  "format:";
  String Str.tab "uv run ruff format src tests";
  "";
  "typecheck:";
  String Str.tab "uv run mypy src";
  "";
  "all: format lint typecheck test"
]).

Definition GITIGNORE_TEMPLATE : string := Str.py (Str.unlines [
  "__pycache__/";
  "*.py[cod]";
  "*$py.class";
  ".venv/";
  "venv/";
  ".env";
  "*.egg-info/";
  "dist/";
  "build/";
  ".mypy_cache/";
  ".pytest_cache/";
  ".ruff_cache/"
]).

Definition BASE_PY_TEMPLATE : string := Str.py (Str.unlines [
  "```Abstract base classes for dependency injection.```";
  "";
  "from abc import ABC, abstractmethod";
  "from typing import TypeVar";
  "";
  "T = TypeVar(`T`)";
  "";
  "";
  "class Repository(ABC):";
  "    ```Base repository interface.```";
  "";
  "    @abstractmethod";
  "    def save(self, entity: T) -> None:";
  "        ```Persist an entity.```";
  "        ...";
  "";
  "    @abstractmethod";
  "    def find_by_id(self, entity_id: str) -> T | None:";
  "        ```Retrieve an entity by ID.```";
  "        ..."
]).

Definition CONFIG_PY_TEMPLATE : string := Str.py (Str.unlines [
  "```Application configuration.```";
  "";
  "from dataclasses import dataclass, field";
  "from pathlib import Path";
  "";
  "";
  "@dataclass";
  "class Config:";
  "    ```Main application configuration.```";
  "";
  "    debug: bool = False";
  "    log_level: str = `INFO`";
  "    data_dir: Path = field(default_factory=lambda: Path(`data`))"
]).

Definition INIT_TEMPLATE : string := Str.py (Str.unlines [
  "```{description}```";
  "";
  "__version__ = `0.1.0`"
]).

(** The literal written to a sub-package's [__init__.py]. *)
Definition PACKAGE_MARKER : string := Str.py (Str.unlines ["```Package.```"]).

(* ===================================================================== *)
(** * pathlib                                                             *)
(* ===================================================================== *)

(** A [PurePosixPath]: the root is the empty string (a relative path), one
    slash, or two slashes; the parts are the components after the root. *)
Record Path := mkPath { root : string; parts : list string }.

Module Pathlib.

(** The number of slashes a string starts with. *)
Fixpoint leading_slashes (s : string) : nat :=
  match s with
  | String c rest => if Ascii.eqb c "/" then S (leading_slashes rest) else 0
  | EmptyString => 0
  end.

(** The root of a parsed string: exactly two leading slashes are kept, any
    other number of leading slashes is one root. *)
Definition root_of (s : string) : string :=
  match leading_slashes s with
  | 0 => ""
  | 2 => "//"
  | _ => "/"
  end.

(** Empty components and single dots are dropped when a path is parsed;
    double dots are kept. *)
Definition keep (x : string) : bool :=
  negb (String.eqb x "") && negb (String.eqb x ".").

Definition parts_of (s : string) : list string :=
  List.filter keep (Str.split_slash s).

(** [Path(s)] *)
Definition of_string (s : string) : Path :=
  {| root := root_of s; parts := parts_of s |}.

(** [p / s]: an absolute right operand replaces the left one. *)
Definition div (p : Path) (s : string) : Path :=
  let q := of_string s in
  if String.eqb (root q) "" then {| root := root p; parts := parts p ++ parts q |}
  else q.

(** [str(p)] *)
Definition str (p : Path) : string :=
  match root p, parts p with
  | EmptyString, [] => "."
  | r, ps => r +:+ Str.join_slash ps
  end.

(** [p.parent]: the last part dropped; a path without parts is its own
    parent. *)
Definition parent (p : Path) : Path :=
  {| root := root p; parts := removelast (parts p) |}.

End Pathlib.

Notation "p // s" := (Pathlib.div p s) (at level 40, left associativity).

(* ===================================================================== *)
(** * The file system                                                     *)
(* ===================================================================== *)

Inductive node := Dir | File (content : string).

(** The [OSError] subclasses the modelled calls raise. *)
Inductive OSError :=
  | FileNotFoundError
  | FileExistsError
  | NotADirectoryError
  | IsADirectoryError.

Inductive result (A : Type) := Ok (a : A) | Raise (e : OSError).
Arguments Ok {A} a.
Arguments Raise {A} e.

(** Keys are canonical absolute paths: the components from the root
    directory, which is the empty list. *)
Abbreviation fsys := (gmap (list string) node).

(** A computation on the file system: the state it leaves and a value or
    the exception that stopped it. *)
Definition M (A : Type) : Type := fsys → fsys * result A.

Definition ret {A} (a : A) : M A := λ fs, (fs, Ok a).

(** Sequencing: an exception skips the rest and keeps the state reached. *)
Definition bind {A B} (k : A → M B) (m : M A) : M B := λ fs,
  match m fs with
  | (fs', Ok a) => k a fs'
  | (fs', Raise e) => (fs', Raise e)
  end.

#[global] Instance M_ret : MRet M := @ret.
#[global] Instance M_bind : MBind M := @bind.

(** [for x in xs: body(x)] *)
Fixpoint for_each {A} (xs : list A) (body : A → M unit) : M unit :=
  match xs with
  | [] => ret tt
  | x :: rest => body x ;; for_each rest body
  end.

(** [if b: m] *)
Definition when (b : bool) (m : M unit) : M unit := if b then m else ret tt.

Section Process.

(** The working directory of the process, a canonical absolute path. *)
Variable cwd : list string.

(** Where resolution of a path starts. *)
Definition origin (p : Path) : list string :=
  if decide (root p = "") then cwd else [].

(** Resolution of directory components from [cur]: a double dot goes to the
    parent (the root is its own parent), any other component must name an
    existing directory. *)
Fixpoint walk (fs : fsys) (cur : list string) (comps : list string)
    : result (list string) :=
  match comps with
  | [] => Ok cur
  | c :: rest =>
      if decide (c = "..") then walk fs (removelast cur) rest
      else match fs !! (cur ++ [c]) with
           | Some Dir => walk fs (cur ++ [c]) rest
           | Some (File _) => Raise NotADirectoryError
           | None => Raise FileNotFoundError
           end
  end.

(** The canonical location a path names: all components but the last are
    resolved, the last is only appended (it need not exist). *)
Definition locate (fs : fsys) (p : Path) : result (list string) :=
  match last (parts p) with
  | None => Ok (origin p)
  | Some c =>
      match walk fs (origin p) (removelast (parts p)) with
      | Raise e => Raise e
      | Ok d => Ok (if decide (c = "..") then removelast d else d ++ [c])
      end
  end.

(** [os.stat(p)] *)
Definition os_stat (fs : fsys) (p : Path) : result node :=
  match locate fs p with
  | Raise e => Raise e
  | Ok t => match fs !! t with
            | Some n => Ok n
            | None => Raise FileNotFoundError
            end
  end.

(** [p.exists()]: [False] on the errors [stat] can raise here. *)
Definition path_exists (fs : fsys) (p : Path) : bool :=
  match os_stat fs p with
  | Ok _ => true
  | Raise _ => false
  end.

(** [p.is_dir()] *)
Definition is_dir (fs : fsys) (p : Path) : bool :=
  match os_stat fs p with
  | Ok Dir => true
  | _ => false
  end.

(** [p.read_text()] where [p] names a regular file. *)
Definition read_text (fs : fsys) (p : Path) : option string :=
  match os_stat fs p with
  | Ok (File data) => Some data
  | _ => None
  end.

Definition exists_ (p : Path) : M bool := λ fs, (fs, Ok (path_exists fs p)).

(** [os.mkdir(p)] *)
Definition os_mkdir (p : Path) : M unit := λ fs,
  match locate fs p with
  | Raise e => (fs, Raise e)
  | Ok t =>
      match fs !! t with
      | Some _ => (fs, Raise FileExistsError)
      | None => (<[t := Dir]> fs, Ok tt)
      end
  end.

(** [Path.mkdir(parents=False, exist_ok=exist_ok)]: a missing parent is
    re-raised; any other error is swallowed when [exist_ok] holds and the
    path is a directory. *)
Definition mkdir_leaf (exist_ok : bool) (p : Path) : M unit := λ fs,
  match os_mkdir p fs with
  | (fs', Ok _) => (fs', Ok tt)
  | (_, Raise FileNotFoundError) => (fs, Raise FileNotFoundError)
  | (_, Raise e) =>
      if exist_ok && is_dir fs p then (fs, Ok tt) else (fs, Raise e)
  end.

(** [Path.mkdir(parents=True, exist_ok=exist_ok)] on the path with root [r]
    and parts [rev rparts]: on a missing parent, the parent is made with
    [parents=True, exist_ok=True] and the path itself is retried without
    [parents].  A path without parts is its own parent and re-raises. *)
Fixpoint mkdir_parents (r : string) (rparts : list string) (exist_ok : bool)
    : M unit := λ fs,
  let self := mkPath r (rev rparts) in
  match os_mkdir self fs with
  | (fs', Ok _) => (fs', Ok tt)
  | (_, Raise FileNotFoundError) =>
      match rparts with
      | [] => (fs, Raise FileNotFoundError)
      | _ :: rparent =>
          match mkdir_parents r rparent true fs with
          | (fs1, Ok _) => mkdir_leaf exist_ok self fs1
          | (fs1, Raise e) => (fs1, Raise e)
          end
      end
  | (_, Raise e) =>
      if exist_ok && is_dir fs self then (fs, Ok tt) else (fs, Raise e)
  end.

(** [p.mkdir(parents=parents, exist_ok=exist_ok)] *)
Definition mkdir (p : Path) (parents exist_ok : bool) : M unit :=
  if parents then mkdir_parents (root p) (rev (parts p)) exist_ok
  else mkdir_leaf exist_ok p.

(** [p.write_text(data)]: the file is created or truncated, then written. *)
Definition write_text (p : Path) (data : string) : M unit := λ fs,
  match locate fs p with
  | Raise e => (fs, Raise e)
  | Ok t =>
      match fs !! t with
      | Some Dir => (fs, Raise IsADirectoryError)
      | _ => (<[t := File data]> fs, Ok tt)
      end
  end.

(* ===================================================================== *)
(** * create_project                                                      *)
(* ===================================================================== *)

Definition project_dir (name : string) (output_dir : Path) : Path :=
  output_dir // name.

Definition package_name (name : string) : string :=
  Str.replace "-" "_" name.

Definition src_dir (name : string) (output_dir : Path) : Path :=
  project_dir name output_dir // "src" // package_name name.

Definition directories (name : string) (output_dir : Path) : list Path :=
  let project_dir := project_dir name output_dir in
  let src_dir := src_dir name output_dir in
  [ project_dir // "configs";
    project_dir // "scripts";
    project_dir // "tests" // "unit";
    project_dir // "tests" // "integration";
    src_dir // "entities";
    src_dir // "services";
    src_dir // "workflows";
    src_dir // "infrastructure" ].

(** The body of the loop over [directories]. *)
Definition make_package (directory : Path) : M unit :=
  mkdir directory true true ;;
  let init_file := directory // "__init__.py" in
  present ← exists_ init_file;
  when (Str.contains "src" (Pathlib.str directory) && negb present)
    (write_text init_file PACKAGE_MARKER).

Definition render_pyproject (name : string) : string :=
  Str.format PYPROJECT_TEMPLATE [("name", name)].

Definition render_init (name : string) : string :=
  Str.format INIT_TEMPLATE [("description", name +:+ " package")].

Definition create_project (name : string) (output_dir : Path) : M unit :=
  let project_dir := project_dir name output_dir in
  let src_dir := src_dir name output_dir in
  for_each (directories name output_dir) make_package ;;
  write_text (project_dir // "pyproject.toml") (render_pyproject name) ;;
  write_text (project_dir // "Makefile") MAKEFILE_TEMPLATE ;;
  write_text (project_dir // ".gitignore") GITIGNORE_TEMPLATE ;;
  write_text (src_dir // "__init__.py") (render_init name) ;;
  write_text (src_dir // "base.py") BASE_PY_TEMPLATE ;;
  write_text (src_dir // "config.py") CONFIG_PY_TEMPLATE ;;
  write_text (project_dir // "tests" // "__init__.py") "" ;;
  write_text (project_dir // "tests" // "unit" // "__init__.py") "" ;;
  write_text (project_dir // "tests" // "integration" // "__init__.py") "".

End Process.


(* ===================================================================== *)
(** * Notions used to state and prove the properties                      *)
(* ===================================================================== *)

(** The character map that [package_name] applies. *)
Definition hyphen_to_underscore (c : ascii) : ascii :=
  if Ascii.eqb c "-" then "_"%char else c.

(** A template's text before and after its one replacement field. *)
Fixpoint before_brace (s : string) : string :=
  match s with
  | EmptyString => EmptyString
  | String c rest => if Ascii.eqb c "{" then EmptyString else String c (before_brace rest)
  end.

Fixpoint after_brace (s : string) : string :=
  match s with
  | EmptyString => EmptyString
  | String c rest => if Ascii.eqb c "}" then rest else after_brace rest
  end.

(** A path extended by one ordinary component. *)
Definition child (p : Path) (c : string) : Path :=
  mkPath (root p) (parts p ++ [c]).

(** [c] parses to itself: it is a single component, neither empty nor a
    single dot, and holds no slash. *)
Definition is_component (c : string) : bool :=
  bool_decide (Pathlib.root_of c = "") && bool_decide (Pathlib.parts_of c = [c]).

(** The sub-packages the loop makes under the source package. *)
Definition subpackages : list string :=
  ["entities"; "services"; "workflows"; "infrastructure"].

(** The nine files [create_project] writes after the loop, in the order of
    the source, each with its content. *)
Definition files (name : string) (output_dir : Path) : list (Path * string) :=
  let project_dir := project_dir name output_dir in
  let src_dir := src_dir name output_dir in
  [ (project_dir // "pyproject.toml", render_pyproject name);
    (project_dir // "Makefile", MAKEFILE_TEMPLATE);
    (project_dir // ".gitignore", GITIGNORE_TEMPLATE);
    (src_dir // "__init__.py", render_init name);
    (src_dir // "base.py", BASE_PY_TEMPLATE);
    (src_dir // "config.py", CONFIG_PY_TEMPLATE);
    (project_dir // "tests" // "__init__.py", "");
    (project_dir // "tests" // "unit" // "__init__.py", "");
    (project_dir // "tests" // "integration" // "__init__.py", "") ].

Definition write_all (cwd : list string) (ws : list (Path * string)) : M unit :=
  for_each ws (λ w, write_text cwd w.1 w.2).

(** ** Relations between file systems *)

#[global] Instance node_eq_dec : EqDecision node.
Proof. solve_decision. Defined.

Definition kind (n : node) : bool :=
  match n with Dir => true | File _ => false end.

(** [fs'] has every entry of [fs], a directory where [fs] has one and a
    regular file where [fs] has one (its content may differ). *)
Definition extends (fs fs' : fsys) : Prop :=
  ∀ p n, fs !! p = Some n → ∃ n', fs' !! p = Some n' ∧ kind n' = kind n.

(** [fs'] is [fs] with directories added at places that were free. *)
Definition adds_dirs (fs fs' : fsys) : Prop :=
  ∀ p, fs' !! p = fs !! p ∨ (fs !! p = None ∧ fs' !! p = Some Dir).

(** [fs'] is [fs] with directories added at free places on the way to
    [target]. *)
Definition adds_dirs_to (target : list string) (fs fs' : fsys) : Prop :=
  ∀ q, fs' !! q = fs !! q ∨
       (q `prefix_of` target ∧ fs !! q = None ∧ fs' !! q = Some Dir).

(** The writes [l], each a place and a content, done on [fs] in order. *)
Definition inserts (l : list (list string * string)) (fs : fsys) : fsys :=
  foldl (λ m w, <[w.1 := File w.2]> m) fs l.

(** ** Well-formed file systems *)

(** The root is a directory and every entry lies in a directory. *)
Definition tidy (fs : fsys) : Prop :=
  fs !! [] = Some Dir ∧ map_Forall (λ p _, fs !! removelast p = Some Dir) fs.

#[global] Instance tidy_dec fs : Decision (tidy fs).
Proof. unfold tidy. apply _. Defined.

Definition is_regular (o : option node) : Prop :=
  match o with Some (File _) => True | _ => False end.

#[global] Instance is_regular_dec o : Decision (is_regular o).
Proof. destruct o as [[|data]|]; cbn; apply _. Defined.


(** ** Paths and the places they name *)

(** A path without double dots. *)
Definition plain (p : Path) : Prop := ".." ∉ parts p.

Section Notions.
Variable cwd : list string.

(** The place a path without double dots names. *)
Definition canon (p : Path) : list string := origin cwd p ++ parts p.

(** [p] names a regular file. *)
Definition is_file (fs : fsys) (p : Path) : Prop :=
  ∃ t c, locate cwd fs p = Ok t ∧ fs !! t = Some (File c).

(** No file system resolves [p] and [p'] to the same place. *)
Definition apart (p p' : Path) : Prop :=
  ∀ fs t, locate cwd fs p = Ok t → locate cwd fs p' = Ok t → False.

(** What the loop body has established when it returns. *)
Definition packaged (fs : fsys) (d : Path) : Prop :=
  is_dir cwd fs d = true ∧
  (Str.contains "src" (Pathlib.str d) = true →
   path_exists cwd fs (d // "__init__.py") = true).

(** What the loop over the directories [ds] can have changed between [fs]
    and [fs']: a place is as it was, or it was free and is now a directory
    on the way to one of [ds], or it was free and now holds the package
    marker of one of [ds] whose path has [src] in its text. *)
Definition loop_made (ds : list Path) (fs fs' : fsys) : Prop :=
  ∀ q, fs' !! q = fs !! q ∨
       (fs !! q = None ∧
        ∃ d, d ∈ ds ∧
          ((fs' !! q = Some Dir ∧ q `prefix_of` canon d) ∨
           (fs' !! q = Some (File PACKAGE_MARKER) ∧
            q = canon d ++ ["__init__.py"] ∧
            Str.contains "src" (Pathlib.str d) = true))).

(** What the writes [ws] can have changed: a place is as it was, or it is
    the place of one of [ws] and holds a regular file. *)
Definition writes_made (ws : list (Path * string)) (fs fs' : fsys) : Prop :=
  ∀ q, fs' !! q = fs !! q ∨
       (is_regular (fs' !! q) ∧ ∃ w, w ∈ ws ∧ q = canon w.1).

End Notions.

(** ** The places of a project *)

(** The places of the eight directories, for the project directory at [B]
    and the parts [pp] of the package name. *)
Definition project_dirs (B pp : list string) : list (list string) :=
  [ B ++ ["configs"];
    B ++ ["scripts"];
    B ++ ["tests"; "unit"];
    B ++ ["tests"; "integration"];
    B ++ "src" :: pp ++ ["entities"];
    B ++ "src" :: pp ++ ["services"];
    B ++ "src" :: pp ++ ["workflows"];
    B ++ "src" :: pp ++ ["infrastructure"] ].

(** The places of the files: a marker in each of the eight directories,
    then the nine files written after the loop. *)
Definition project_files (B pp : list string) : list (list string) :=
  [ B ++ ["configs"; "__init__.py"];
    B ++ ["scripts"; "__init__.py"];
    B ++ ["tests"; "unit"; "__init__.py"];
    B ++ ["tests"; "integration"; "__init__.py"];
    B ++ "src" :: pp ++ ["entities"; "__init__.py"];
    B ++ "src" :: pp ++ ["services"; "__init__.py"];
    B ++ "src" :: pp ++ ["workflows"; "__init__.py"];
    B ++ "src" :: pp ++ ["infrastructure"; "__init__.py"];
    B ++ ["pyproject.toml"];
    B ++ ["Makefile"];
    B ++ [".gitignore"];
    B ++ "src" :: pp ++ ["__init__.py"];
    B ++ "src" :: pp ++ ["base.py"];
    B ++ "src" :: pp ++ ["config.py"];
    B ++ ["tests"; "__init__.py"] ].


(** ** Some file systems *)

(** Only the root directory. *)
Definition root_only : fsys := {[ [] := Dir ]}.

(** The directory [/tmp/x], empty. *)
Definition tmp_x : fsys :=
  <[ ["tmp"; "x"] := Dir ]> (<[ ["tmp"] := Dir ]> root_only).

(** The directory [/home/u/src], empty. *)
Definition home_src : fsys :=
  <[ ["home"; "u"; "src"] := Dir ]>
    (<[ ["home"; "u"] := Dir ]> (<[ ["home"] := Dir ]> root_only)).

(** [/tmp/x] with a project [widget] already in it: a build helper and an
    [entities] marker that were edited by hand. *)
Definition tmp_x_edited : fsys :=
  <[ ["tmp"; "x"; "widget"; "src"; "widget"; "entities"; "__init__.py"]
       := File "edited by hand" ]>
  (<[ ["tmp"; "x"; "widget"; "src"; "widget"; "entities"] := Dir ]>
  (<[ ["tmp"; "x"; "widget"; "src"; "widget"] := Dir ]>
  (<[ ["tmp"; "x"; "widget"; "src"] := Dir ]>
  (<[ ["tmp"; "x"; "widget"; "Makefile"] := File "all:" ]>
  (<[ ["tmp"; "x"; "widget"] := Dir ]> tmp_x))))).

(** The root directory and [/tmp], with a regular file at [/tmp/x]. *)
Definition tmp_x_file : fsys :=
  <[ ["tmp"; "x"] := File "notes" ]> (<[ ["tmp"] := Dir ]> root_only).

(** [/tmp/x] with a project [widget] in which [configs] is a regular
    file. *)
Definition tmp_x_configs_file : fsys :=
  <[ ["tmp"; "x"; "widget"; "configs"] := File "key = value" ]>
  (<[ ["tmp"; "x"; "widget"] := Dir ]> tmp_x).

(** [/tmp/x] with a project [widget] in which [Makefile] is a directory. *)
Definition tmp_x_makefile_dir : fsys :=
  <[ ["tmp"; "x"; "widget"; "Makefile"] := Dir ]>
  (<[ ["tmp"; "x"; "widget"] := Dir ]> tmp_x).

(* ===================================================================== *)
(** * Facts about strings                                                 *)
(* ===================================================================== *)

Lemma prefix_empty s : String.prefix "" s = true.
Proof. by destruct s. Qed.

Lemma replace_hyphen s :
  Str.replace "-" "_" s = Str.map hyphen_to_underscore s.
Proof.
  unfold Str.replace. induction s as [|c s IH]; [done|].
  cbn [Str.replace_go Str.map String.prefix]. unfold hyphen_to_underscore.
  destruct (ascii_dec "-" c) as [<-|Hc].
  - rewrite prefix_empty. cbn. by rewrite IH.
  - rewrite IH. destruct (Ascii.eqb_spec c "-") as [->|]; done.
Qed.

Lemma map_length f s : String.length (Str.map f s) = String.length s.
Proof. induction s; cbn; congruence. Qed.

Lemma map_get f s i : String.get i (Str.map f s) = f <$> String.get i s.
Proof.
  revert i. induction s as [|c s IH]; intros i; [done|].
  destruct i; cbn; [done|apply IH].
Qed.

Lemma app_String c s t : String c s +:+ t = String c (s +:+ t).
Proof. done. Qed.

Lemma app_length s t :
  String.length (s +:+ t) = String.length s + String.length t.
Proof. induction s as [|c s IH]; [done|]. rewrite app_String. cbn. by rewrite IH. Qed.

Lemma app_inv_tail_string s1 s2 t : s1 +:+ t = s2 +:+ t → s1 = s2.
Proof.
  revert s2. induction s1 as [|c s1 IH]; intros [|c' s2] H; [done| | |].
  - apply (f_equal String.length) in H. rewrite !app_length in H. cbn in H. lia.
  - apply (f_equal String.length) in H. rewrite !app_length in H. cbn in H. lia.
  - rewrite !app_String in H. injection H as -> H. f_equal. by apply IH.
Qed.

Lemma render_pyproject_split name :
  render_pyproject name =
    before_brace PYPROJECT_TEMPLATE +:+ name +:+ after_brace PYPROJECT_TEMPLATE.
Proof. vm_compute. reflexivity. Qed.

Lemma render_init_split name :
  render_init name =
    before_brace INIT_TEMPLATE +:+ (name +:+ " package") +:+ after_brace INIT_TEMPLATE.
Proof. vm_compute. reflexivity. Qed.

Lemma render_pyproject_inj n1 n2 :
  render_pyproject n1 = render_pyproject n2 → n1 = n2.
Proof.
  rewrite !render_pyproject_split. intros H.
  apply (inj (String.app _)) in H. by apply app_inv_tail_string in H.
Qed.

(* ===================================================================== *)
(** * Facts about paths                                                   *)
(* ===================================================================== *)

Lemma div_relative p s :
  Pathlib.root_of s = "" →
  p // s = mkPath (root p) (parts p ++ Pathlib.parts_of s).
Proof. intros H. unfold Pathlib.div. cbn. by rewrite H. Qed.

Lemma div_child p c : is_component c = true → p // c = child p c.
Proof.
  unfold is_component. intros [H1 H2]%andb_prop.
  apply bool_decide_eq_true in H1, H2.
  rewrite div_relative by done. unfold child. by rewrite H2.
Qed.


(* ===================================================================== *)
(** * Facts about the file system                                         *)
(* ===================================================================== *)

Lemma extends_refl fs : extends fs fs.
Proof. intros p n H. eauto. Qed.

Lemma extends_trans fs1 fs2 fs3 :
  extends fs1 fs2 → extends fs2 fs3 → extends fs1 fs3.
Proof.
  intros H12 H23 p n H. destruct (H12 p n H) as (n2 & H2 & K2).
  destruct (H23 p n2 H2) as (n3 & H3 & K3). exists n3. split; [done|congruence].
Qed.

Lemma subseteq_extends (fs fs' : fsys) : fs ⊆ fs' → extends fs fs'.
Proof. intros H p n Hp. exists n. split; [|done]. by eapply lookup_weaken. Qed.

Lemma extends_write (fs : fsys) t data :
  fs !! t ≠ Some Dir → extends fs (<[t := File data]> fs).
Proof.
  intros Ht p n Hp. destruct (decide (t = p)) as [->|Hne].
  - exists (File data). rewrite lookup_insert_eq. split; [done|].
    destruct n; [done|done].
  - exists n. by rewrite lookup_insert_ne.
Qed.

Lemma extends_dir fs fs' p :
  extends fs fs' → fs !! p = Some Dir → fs' !! p = Some Dir.
Proof. intros H Hp. destruct (H p Dir Hp) as ([|c] & Hn & K); [done|done]. Qed.

Lemma extends_is_Some fs fs' p :
  extends fs fs' → is_Some (fs !! p) → is_Some (fs' !! p).
Proof. intros H [n Hp]. destruct (H p n Hp) as (n' & Hn & _). eauto. Qed.

Lemma extends_file fs fs' p c :
  extends fs fs' → fs !! p = Some (File c) → ∃ c', fs' !! p = Some (File c').
Proof. intros H Hp. destruct (H p _ Hp) as ([|c'] & Hn & K); [done|eauto]. Qed.

Lemma walk_app fs cur q1 q2 :
  walk fs cur (q1 ++ q2) =
    match walk fs cur q1 with
    | Ok w => walk fs w q2
    | Raise e => Raise e
    end.
Proof.
  revert cur. induction q1 as [|c q1 IH]; intros cur; [done|].
  cbn. case_decide; [apply IH|].
  destruct (fs !! (cur ++ [c])) as [[|?]|]; [apply IH|done|done].
Qed.

Lemma walk_extends fs fs' cur q w :
  extends fs fs' → walk fs cur q = Ok w → walk fs' cur q = Ok w.
Proof.
  intros Hext. revert cur. induction q as [|c q IH]; intros cur; [done|].
  cbn. case_decide; [apply IH|].
  destruct (fs !! (cur ++ [c])) as [[|?]|] eqn:E; [|done|done].
  rewrite (extends_dir _ _ _ Hext E). apply IH.
Qed.

Lemma walk_snoc fs cur q c w :
  c ≠ ".." → walk fs cur (q ++ [c]) = Ok w →
  ∃ w0, walk fs cur q = Ok w0 ∧ w = w0 ++ [c] ∧ fs !! w = Some Dir.
Proof.
  intros Hc. rewrite walk_app. destruct (walk fs cur q) as [w0|] eqn:E; [|done].
  cbn. rewrite decide_False by done.
  destruct (fs !! (w0 ++ [c])) as [[|?]|] eqn:E'; [|done|done].
  intros [= <-]. eauto.
Qed.

Section Facts.
Variable cwd : list string.

Lemma origin_child p c : origin cwd (child p c) = origin cwd p.
Proof. done. Qed.

Lemma locate_child fs p c :
  c ≠ ".." →
  locate cwd fs (child p c) =
    match walk fs (origin cwd p) (parts p) with
    | Ok w => Ok (w ++ [c])
    | Raise e => Raise e
    end.
Proof.
  intros Hc. unfold locate, child. cbn [parts root].
  rewrite last_snoc, removelast_last. fold (origin cwd p).
  change (origin cwd {| root := root p; parts := parts p ++ [c] |}) with (origin cwd p).
  destruct (walk fs (origin cwd p) (parts p)); [|done].
  by rewrite decide_False.
Qed.

Lemma locate_extends fs fs' p t :
  extends fs fs' → locate cwd fs p = Ok t → locate cwd fs' p = Ok t.
Proof.
  intros Hext. unfold locate. destruct (last (parts p)); [|done].
  destruct (walk fs _ _) as [w|] eqn:E; [|done].
  by rewrite (walk_extends _ _ _ _ _ Hext E).
Qed.

End Facts.

Lemma adds_dirs_refl fs : adds_dirs fs fs.
Proof. intros p. by left. Qed.

Lemma adds_dirs_trans fs1 fs2 fs3 :
  adds_dirs fs1 fs2 → adds_dirs fs2 fs3 → adds_dirs fs1 fs3.
Proof.
  intros H12 H23 p. destruct (H12 p) as [E|[E1 E2]], (H23 p) as [F|[F1 F2]].
  - left. congruence.
  - right. split; congruence.
  - right. split; congruence.
  - congruence.
Qed.

Lemma adds_dirs_insert (fs : fsys) t :
  fs !! t = None → adds_dirs fs (<[t := Dir]> fs).
Proof.
  intros Ht p. destruct (decide (t = p)) as [->|Hne].
  - right. by rewrite lookup_insert_eq.
  - left. by rewrite lookup_insert_ne.
Qed.

Lemma adds_dirs_subseteq (fs fs' : fsys) : adds_dirs fs fs' → fs ⊆ fs'.
Proof.
  intros H. apply map_subseteq_spec. intros p n Hp.
  destruct (H p) as [E|[E _]]; congruence.
Qed.

Lemma adds_dirs_extends fs fs' : adds_dirs fs fs' → extends fs fs'.
Proof. intros H. by apply subseteq_extends, adds_dirs_subseteq. Qed.

Lemma bind_inv {A B} (m : M A) (k : A → M B) fs fs' r :
  (m ≫= k) fs = (fs', r) →
  ∃ fs1 r1, m fs = (fs1, r1) ∧
    match r1 with
    | Ok a => k a fs1 = (fs', r)
    | Raise e => fs' = fs1 ∧ r = Raise e
    end.
Proof.
  unfold mbind, M_bind, bind. destruct (m fs) as [fs1 [a|e]]; intros H.
  - by exists fs1, (Ok a).
  - exists fs1, (Raise e). by injection H as <- <-.
Qed.

Lemma bind_Ok {A B} (m : M A) (k : A → M B) fs fs' b :
  (m ≫= k) fs = (fs', Ok b) →
  ∃ fs1 a, m fs = (fs1, Ok a) ∧ k a fs1 = (fs', Ok b).
Proof.
  intros H. apply bind_inv in H as (fs1 & [a|e] & Hm & Hk); [eauto|].
  by destruct Hk.
Qed.

Lemma bind_run {A B} (m : M A) (k : A → M B) fs fs1 a :
  m fs = (fs1, Ok a) → (m ≫= k) fs = k a fs1.
Proof. unfold mbind, M_bind, bind. by intros ->. Qed.

Section Steps.
Variable cwd : list string.

Lemma is_dir_spec fs p :
  is_dir cwd fs p = true ↔ ∃ t, locate cwd fs p = Ok t ∧ fs !! t = Some Dir.
Proof.
  unfold is_dir, os_stat. destruct (locate cwd fs p) as [t|e].
  - destruct (fs !! t) as [[|c]|] eqn:E; split; try done.
    + eauto.
    + intros (t' & [= <-] & H). congruence.
    + intros (t' & [= <-] & H). congruence.
  - split; [done|]. by intros (t & H & _).
Qed.

Lemma path_exists_spec fs p :
  path_exists cwd fs p = true ↔ ∃ t, locate cwd fs p = Ok t ∧ is_Some (fs !! t).
Proof.
  unfold path_exists, os_stat. destruct (locate cwd fs p) as [t|e].
  - destruct (fs !! t) as [n|] eqn:E; split; try done.
    + eauto.
    + intros (t' & [= <-] & H). rewrite E in H. by destruct H.
  - split; [done|]. by intros (t & H & _).
Qed.

Lemma read_text_spec fs p c :
  read_text cwd fs p = Some c ↔ ∃ t, locate cwd fs p = Ok t ∧ fs !! t = Some (File c).
Proof.
  unfold read_text, os_stat. destruct (locate cwd fs p) as [t|e].
  - destruct (fs !! t) as [[|c']|] eqn:E; split; try done.
    + intros (t' & [= <-] & H). congruence.
    + intros [= ->]. eauto.
    + intros (t' & [= <-] & H). congruence.
    + intros (t' & [= <-] & H). congruence.
  - split; [done|]. by intros (t & H & _).
Qed.

Lemma is_dir_extends fs fs' p :
  extends fs fs' → is_dir cwd fs p = true → is_dir cwd fs' p = true.
Proof.
  intros Hext (t & Hl & Ht)%is_dir_spec. apply is_dir_spec. exists t.
  split; [by eapply locate_extends|by eapply extends_dir].
Qed.

Lemma path_exists_extends fs fs' p :
  extends fs fs' → path_exists cwd fs p = true → path_exists cwd fs' p = true.
Proof.
  intros Hext (t & Hl & Ht)%path_exists_spec. apply path_exists_spec. exists t.
  split; [by eapply locate_extends|by eapply extends_is_Some].
Qed.

Lemma is_file_extends fs fs' p :
  extends fs fs' → is_file cwd fs p → is_file cwd fs' p.
Proof.
  intros Hext (t & c & Hl & Ht). destruct (extends_file _ _ _ _ Hext Ht) as [c' Hc'].
  exists t, c'. split; [by eapply locate_extends|done].
Qed.

Lemma os_mkdir_inv p fs fs' r :
  os_mkdir cwd p fs = (fs', r) →
  (∃ t, locate cwd fs p = Ok t ∧ fs !! t = None ∧ fs' = <[t := Dir]> fs ∧ r = Ok tt)
  ∨ (fs' = fs ∧ ∃ e, r = Raise e).
Proof.
  unfold os_mkdir. destruct (locate cwd fs p) as [t|e].
  - destruct (fs !! t) eqn:E; intros [= <- <-]; [right|left]; eauto.
  - intros [= <- <-]. right. eauto.
Qed.

Lemma os_mkdir_made p fs t :
  locate cwd fs p = Ok t → fs !! t = None →
  is_dir cwd (<[t := Dir]> fs) p = true.
Proof.
  intros Hl Ht. apply is_dir_spec. exists t. split; [|by rewrite lookup_insert_eq].
  eapply locate_extends; [|done]. by apply adds_dirs_extends, adds_dirs_insert.
Qed.

Lemma mkdir_leaf_spec exist_ok p fs fs' r :
  mkdir_leaf cwd exist_ok p fs = (fs', r) →
  adds_dirs fs fs' ∧ (r = Ok tt → is_dir cwd fs' p = true).
Proof.
  unfold mkdir_leaf. destruct (os_mkdir cwd p fs) as [fs1 r1] eqn:E.
  apply os_mkdir_inv in E as [(t & Hl & Ht & -> & ->)|[-> [e ->]]].
  - intros [= <- <-]. split; [by apply adds_dirs_insert|]. intros _. by apply os_mkdir_made.
  - destruct e; try (intros [= <- <-]; split; [apply adds_dirs_refl|done]);
      destruct (exist_ok && is_dir cwd fs p) eqn:B; intros [= <- <-];
      (split; [apply adds_dirs_refl|]); try done;
      intros _; by apply andb_prop in B as [_ ?].
Qed.

Lemma mkdir_parents_spec r rparts exist_ok fs fs' res :
  mkdir_parents cwd r rparts exist_ok fs = (fs', res) →
  adds_dirs fs fs' ∧ (res = Ok tt → is_dir cwd fs' (mkPath r (rev rparts)) = true).
Proof.
  revert exist_ok fs fs' res.
  induction rparts as [|c rparent IH]; intros exist_ok fs fs' res;
    cbn [mkdir_parents]; cbv zeta;
    destruct (os_mkdir cwd _ fs) as [fs1 r1] eqn:E;
    apply os_mkdir_inv in E as [(t & Hl & Ht & -> & ->)|[-> [e ->]]].
  - intros [= <- <-]. split; [by apply adds_dirs_insert|]. intros _. by apply os_mkdir_made.
  - destruct e; try (intros [= <- <-]; split; [apply adds_dirs_refl|done]);
      destruct (exist_ok && is_dir cwd fs _) eqn:B; intros [= <- <-];
      (split; [apply adds_dirs_refl|]); try done;
      intros _; by apply andb_prop in B as [_ ?].
  - intros [= <- <-]. split; [by apply adds_dirs_insert|]. intros _. by apply os_mkdir_made.
  - destruct e.
    + destruct (mkdir_parents cwd r rparent true fs) as [fs1 [[]|e]] eqn:E.
      * apply IH in E as [H1 _]. intros [H2 H3]%mkdir_leaf_spec.
        split; [by eapply adds_dirs_trans|done].
      * apply IH in E as [H1 _]. by intros [= <- <-].
    + destruct (exist_ok && is_dir cwd fs _) eqn:B; intros [= <- <-];
        (split; [apply adds_dirs_refl|]); try done.
      intros _; by apply andb_prop in B as [_ ?].
    + destruct (exist_ok && is_dir cwd fs _) eqn:B; intros [= <- <-];
        (split; [apply adds_dirs_refl|]); try done.
      intros _; by apply andb_prop in B as [_ ?].
    + destruct (exist_ok && is_dir cwd fs _) eqn:B; intros [= <- <-];
        (split; [apply adds_dirs_refl|]); try done.
      intros _; by apply andb_prop in B as [_ ?].
Qed.

Lemma mkdir_spec p parents exist_ok fs fs' res :
  mkdir cwd p parents exist_ok fs = (fs', res) →
  adds_dirs fs fs' ∧ (res = Ok tt → is_dir cwd fs' p = true).
Proof.
  unfold mkdir. destruct parents.
  - intros H%mkdir_parents_spec. rewrite rev_involutive in H. by destruct p.
  - apply mkdir_leaf_spec.
Qed.

Lemma write_text_inv p data fs fs' r :
  write_text cwd p data fs = (fs', r) →
  (∃ t, locate cwd fs p = Ok t ∧ fs !! t ≠ Some Dir ∧
        fs' = <[t := File data]> fs ∧ r = Ok tt)
  ∨ (fs' = fs ∧ ∃ e, r = Raise e).
Proof.
  unfold write_text. destruct (locate cwd fs p) as [t|e].
  - destruct (fs !! t) as [[|c]|] eqn:E; intros [= <- <-].
    + right. eauto.
    + left. exists t. by rewrite E.
    + left. exists t. by rewrite E.
  - intros [= <- <-]. right. eauto.
Qed.

Lemma write_text_extends p data fs fs' r :
  write_text cwd p data fs = (fs', r) → extends fs fs'.
Proof.
  intros [(t & _ & Ht & -> & _)|[-> _]]%write_text_inv.
  - by apply extends_write.
  - apply extends_refl.
Qed.

Lemma write_text_read p data fs fs' :
  write_text cwd p data fs = (fs', Ok tt) → read_text cwd fs' p = Some data.
Proof.
  intros H. pose proof (write_text_extends _ _ _ _ _ H) as Hext.
  apply write_text_inv in H as [(t & Hl & Ht & -> & _)|[_ [e [=]]]].
  apply read_text_spec. exists t. split; [by eapply locate_extends|].
  by rewrite lookup_insert_eq.
Qed.

(** A file that is there can be written again. *)
Lemma write_text_again p data fs :
  is_file cwd fs p → ∃ fs', write_text cwd p data fs = (fs', Ok tt).
Proof.
  intros (t & c & Hl & Ht). unfold write_text. rewrite Hl, Ht. eauto.
Qed.

(** A directory that is there is made again without any change. *)
Lemma mkdir_again p fs :
  is_dir cwd fs p = true → mkdir cwd p true true fs = (fs, Ok tt).
Proof.
  intros Hd. pose proof Hd as (t & Hl & Ht)%is_dir_spec.
  unfold mkdir. destruct (rev (parts p)) as [|c rp] eqn:E.
  - cbn [mkdir_parents]. cbv zeta. unfold os_mkdir.
    assert (mkPath (root p) (rev []) = p) as ->.
    { destruct p as [r ps]. cbn in *. f_equal. rewrite <- (rev_involutive ps). by rewrite E. }
    rewrite Hl, Ht. by rewrite Hd.
  - cbn [mkdir_parents]. cbv zeta. unfold os_mkdir.
    assert (mkPath (root p) (rev (c :: rp)) = p) as ->.
    { destruct p as [r ps]. cbn in *. f_equal. rewrite <- (rev_involutive ps). by rewrite E. }
    rewrite Hl, Ht. by rewrite Hd.
Qed.

End Steps.

Lemma bind_ext {A B} (m : M A) (k k' : A → M B) fs :
  (∀ a fs1, k a fs1 = k' a fs1) → (m ≫= k) fs = (m ≫= k') fs.
Proof. intros H. unfold mbind, M_bind, bind. destruct (m fs) as [fs1 [a|e]]; [apply H|done]. Qed.

Lemma bind_ret_r (m : M unit) fs : (m ;; ret tt) fs = m fs.
Proof. unfold mbind, M_bind, bind, ret. by destruct (m fs) as [fs1 [[]|e]]. Qed.

(** [create_project] is the loop over the directories followed by the nine
    writes. *)
Lemma create_project_steps cwd name output_dir fs :
  create_project cwd name output_dir fs =
    (for_each (directories name output_dir) (make_package cwd) ;;
     write_all cwd (files name output_dir)) fs.
Proof.
  unfold create_project, write_all, files. cbv zeta. cbn [for_each fst snd].
  apply bind_ext. intros _ fs0.
  do 8 (apply bind_ext; intros _ ?).
  symmetry. apply bind_ret_r.
Qed.

Section Runs.
Variable cwd : list string.

Lemma apart_sym p p' : apart cwd p p' → apart cwd p' p.
Proof. intros H fs t H1 H2. by apply (H fs t). Qed.

Lemma read_text_grows (fs fs' : fsys) p c :
  fs ⊆ fs' → read_text cwd fs p = Some c → read_text cwd fs' p = Some c.
Proof.
  intros Hsub (t & Hl & Ht)%read_text_spec. apply read_text_spec. exists t.
  split; [|by eapply lookup_weaken].
  eapply locate_extends; [|done]. by apply subseteq_extends.
Qed.

Lemma read_text_is_file fs p c : read_text cwd fs p = Some c → is_file cwd fs p.
Proof. intros (t & Hl & Ht)%read_text_spec. by exists t, c. Qed.

Lemma write_text_frame p p' data fs fs' r c :
  apart cwd p p' → read_text cwd fs p = Some c →
  write_text cwd p' data fs = (fs', r) → read_text cwd fs' p = Some c.
Proof.
  intros Hap (t & Hl & Ht)%read_text_spec Hw.
  pose proof (write_text_extends _ _ _ _ _ _ Hw) as Hext.
  apply write_text_inv in Hw as [(t' & Hl' & _ & -> & _)|[-> _]].
  - apply read_text_spec. exists t. split; [by eapply locate_extends|].
    rewrite lookup_insert_ne; [done|]. intros ->. by apply (Hap fs t).
  - apply read_text_spec. eauto.
Qed.

Lemma write_all_extends ws fs fs' r :
  write_all cwd ws fs = (fs', r) → extends fs fs'.
Proof.
  revert fs. induction ws as [|[p d] ws IH]; intros fs.
  - intros [= <- <-]. apply extends_refl.
  - intros (fs1 & r1 & Hw & Hk)%bind_inv.
    apply write_text_extends in Hw. destruct r1 as [[]|e].
    + eapply extends_trans; [done|]. by apply IH.
    + by destruct Hk as [-> _].
Qed.

(** A file that every write stays clear of keeps its content, whether the
    writes succeed or not. *)
Lemma write_all_frame ws p c fs fs' r :
  Forall (λ w, apart cwd p w.1) ws → read_text cwd fs p = Some c →
  write_all cwd ws fs = (fs', r) → read_text cwd fs' p = Some c.
Proof.
  intros Hws. revert fs. induction Hws as [|[p' d] ws Hap _ IH]; intros fs Hp.
  - by intros [= <- <-].
  - intros (fs1 & r1 & Hw & Hk)%bind_inv.
    pose proof (write_text_frame _ _ _ _ _ _ _ Hap Hp Hw) as Hp1.
    destruct r1 as [[]|e]; [by eapply IH|]. by destruct Hk as [-> _].
Qed.

(** After the writes have succeeded, a file holds what was written to it
    provided the later writes stay clear of it. *)
Lemma write_all_last_wins ws pre p d post fs fs' :
  ws = pre ++ (p, d) :: post → Forall (λ w, apart cwd p w.1) post →
  write_all cwd ws fs = (fs', Ok tt) → read_text cwd fs' p = Some d.
Proof.
  intros ->. revert fs. induction pre as [|[p0 d0] pre IH]; intros fs Hpost.
  - intros (fs1 & [] & Hw & Hk)%bind_Ok.
    apply write_text_read in Hw. by eapply write_all_frame.
  - intros (fs1 & [] & Hw & Hk)%bind_Ok. by eapply IH.
Qed.

Lemma write_all_files ws fs fs' :
  write_all cwd ws fs = (fs', Ok tt) → Forall (λ w, is_file cwd fs' w.1) ws.
Proof.
  revert fs. induction ws as [|[p d] ws IH]; intros fs; [done|].
  intros (fs1 & [] & Hw & Hk)%bind_Ok. constructor; [|by eapply IH].
  apply write_text_read, read_text_is_file in Hw.
  eapply is_file_extends; [|done]. by eapply write_all_extends.
Qed.

Lemma write_all_again ws fs :
  Forall (λ w, is_file cwd fs w.1) ws → ∃ fs', write_all cwd ws fs = (fs', Ok tt).
Proof.
  revert fs. induction ws as [|[p d] ws IH]; intros fs Hws.
  - by exists fs.
  - apply Forall_cons in Hws as [Hp Hws].
    destruct (write_text_again cwd p d fs Hp) as [fs1 Hw].
    destruct (IH fs1) as [fs' Hfs'].
    { eapply Forall_impl; [done|]. intros w Hwf. cbn in Hwf.
      eapply is_file_extends; [|done]. by eapply write_text_extends. }
    exists fs'. unfold write_all. cbn [for_each].
    by rewrite (bind_run _ _ _ _ _ Hw).
Qed.

Lemma packaged_extends fs fs' d : extends fs fs' → packaged cwd fs d → packaged cwd fs' d.
Proof.
  intros Hext [H1 H2]. split; [by eapply is_dir_extends|].
  intros H. eapply path_exists_extends; [done|by apply H2].
Qed.

Lemma make_package_spec d fs fs' r :
  make_package cwd d fs = (fs', r) →
  fs ⊆ fs' ∧ (r = Ok tt → packaged cwd fs' d).
Proof.
  unfold make_package. intros (fs1 & r1 & Hm & Hk)%bind_inv.
  apply mkdir_spec in Hm as [Hadd Hdir]. apply adds_dirs_subseteq in Hadd.
  destruct r1 as [[]|e]; [|by destruct Hk as [-> ->]].
  unfold mbind, M_bind, bind, exists_ in Hk. unfold when in Hk.
  destruct (Str.contains "src" (Pathlib.str d)) eqn:Hsrc;
    destruct (path_exists cwd fs1 (d // "__init__.py")) eqn:Hex; cbn in Hk.
  - injection Hk as <- <-. split; [done|]. intros _. split; [by apply Hdir|done].
  - pose proof (write_text_extends _ _ _ _ _ _ Hk) as Hext.
    pose proof Hk as Hk'.
    apply write_text_inv in Hk as [(t & Hl & Ht & -> & ->)|[-> [e ->]]]; [|done].
    assert (fs1 !! t = None) as Hnone.
    { destruct (fs1 !! t) eqn:E; [|done].
      assert (path_exists cwd fs1 (d // "__init__.py") = true); [|congruence].
      apply path_exists_spec. exists t. by rewrite E. }
    split; [etrans; [done|by apply insert_subseteq]|].
    intros _. split; [eapply is_dir_extends; [done|by apply Hdir]|].
    intros _. apply write_text_read in Hk'.
    apply read_text_spec in Hk' as (t' & Hl' & Ht'). apply path_exists_spec.
    exists t'. by rewrite Ht'.
  - injection Hk as <- <-. split; [done|]. intros _. split; [by apply Hdir|done].
  - injection Hk as <- <-. split; [done|]. intros _. split; [by apply Hdir|congruence].
Qed.

Lemma for_each_make_package ds fs fs' r :
  for_each ds (make_package cwd) fs = (fs', r) →
  fs ⊆ fs' ∧ (r = Ok tt → Forall (packaged cwd fs') ds).
Proof.
  revert fs. induction ds as [|d ds IH]; intros fs.
  - intros [= <- <-]. done.
  - intros (fs1 & r1 & Hm & Hk)%bind_inv.
    apply make_package_spec in Hm as [Hsub Hp].
    destruct r1 as [[]|e]; [|by destruct Hk as [-> ->]].
    apply IH in Hk as [Hsub' Hps]. split; [by etrans|].
    intros ->. constructor; [|by apply Hps].
    eapply packaged_extends; [by apply subseteq_extends|by apply Hp].
Qed.

Lemma make_package_again d fs :
  packaged cwd fs d → make_package cwd d fs = (fs, Ok tt).
Proof.
  intros [Hd Hm]. unfold make_package.
  rewrite (bind_run _ _ _ _ _ (mkdir_again cwd d fs Hd)).
  unfold mbind, M_bind, bind, exists_, when.
  destruct (Str.contains "src" (Pathlib.str d)); [|done].
  by rewrite Hm.
Qed.

Lemma for_each_again ds fs :
  Forall (packaged cwd fs) ds → for_each ds (make_package cwd) fs = (fs, Ok tt).
Proof.
  induction 1 as [|d ds Hd _ IH]; [done|].
  cbn [for_each]. by rewrite (bind_run _ _ _ _ _ (make_package_again d fs Hd)).
Qed.

End Runs.

Section Apart.
Variable cwd : list string.

Lemma apart_last p p' a a' :
  a ≠ ".." → a' ≠ ".." → a ≠ a' → apart cwd (child p a) (child p' a').
Proof.
  intros Ha Ha' Hne fs t H1 H2. rewrite locate_child in H1, H2 by done.
  destruct (walk fs (origin cwd p) (parts p)) as [w|]; [|done].
  destruct (walk fs (origin cwd p') (parts p')) as [w'|]; [|done].
  injection H1 as <-. injection H2 as H2. by apply app_inj_tail in H2 as [_ ?].
Qed.

Lemma locate_child2 fs p a l t :
  a ≠ ".." → l ≠ ".." → locate cwd fs (child (child p a) l) = Ok t →
  ∃ w, walk fs (origin cwd p) (parts p) = Ok w ∧ t = w ++ [a; l].
Proof.
  intros Ha Hl. rewrite locate_child by done. cbn [parts child root].
  change (origin cwd (child p a)) with (origin cwd p).
  destruct (walk fs (origin cwd p) (parts p ++ [a])) as [w|] eqn:E; [|done].
  apply walk_snoc in E as (w0 & Hw0 & -> & _); [|done].
  intros [= <-]. exists w0. by rewrite <- app_assoc.
Qed.

Lemma apart_last2 p p' a a' l l' :
  a ≠ ".." → a' ≠ ".." → l ≠ ".." → l' ≠ ".." → a ≠ a' →
  apart cwd (child (child p a) l) (child (child p' a') l').
Proof.
  intros Ha Ha' Hl Hl' Hne fs t H1 H2.
  apply locate_child2 in H1 as (w & _ & ->); [|done..].
  apply locate_child2 in H2 as (w' & _ & H2); [|done..].
  change [a; l] with ([a] ++ [l]) in H2. change [a'; l'] with ([a'] ++ [l']) in H2.
  rewrite !app_assoc in H2. apply app_inj_tail in H2 as [H2 _].
  by apply app_inj_tail in H2 as [_ ?].
Qed.

Lemma apart_depth p a l l' :
  a ≠ ".." → l ≠ ".." → l' ≠ ".." →
  apart cwd (child p l) (child (child p a) l').
Proof.
  intros Ha Hl Hl' fs t H1 H2. rewrite locate_child in H1 by done.
  apply locate_child2 in H2 as (w' & Hw' & H2); [|done..].
  rewrite Hw' in H1. injection H1 as <-.
  apply (f_equal length) in H2. rewrite !length_app in H2. cbn in H2. lia.
Qed.

End Apart.

Ltac solve_apart :=
  first [ apply apart_last; done
        | apply apart_last2; done
        | apply apart_depth; done
        | apply apart_sym, apart_depth; done ].

Lemma files_children name output_dir :
  files name output_dir =
    let P := project_dir name output_dir in
    let S := src_dir name output_dir in
    [ (child P "pyproject.toml", render_pyproject name);
      (child P "Makefile", MAKEFILE_TEMPLATE);
      (child P ".gitignore", GITIGNORE_TEMPLATE);
      (child S "__init__.py", render_init name);
      (child S "base.py", BASE_PY_TEMPLATE);
      (child S "config.py", CONFIG_PY_TEMPLATE);
      (child (child P "tests") "__init__.py", "");
      (child (child (child P "tests") "unit") "__init__.py", "");
      (child (child (child P "tests") "integration") "__init__.py", "") ].
Proof. unfold files. cbv zeta. by rewrite !div_child by reflexivity. Qed.

Section Contents.
Variable cwd : list string.

(** The run as its two phases: the state after the loop, then the writes. *)
Lemma create_project_Ok name output_dir fs fs' :
  create_project cwd name output_dir fs = (fs', Ok tt) →
  ∃ fs0, for_each (directories name output_dir) (make_package cwd) fs = (fs0, Ok tt) ∧
         write_all cwd (files name output_dir) fs0 = (fs', Ok tt).
Proof.
  rewrite create_project_steps. intros (fs0 & [] & H1 & H2)%bind_Ok. eauto.
Qed.

(** Eight of the nine files hold what was written to them, whatever the
    name: no later write can reach them. *)
Lemma create_project_contents name output_dir fs fs' :
  create_project cwd name output_dir fs = (fs', Ok tt) →
  let P := project_dir name output_dir in
  let S := src_dir name output_dir in
  read_text cwd fs' (P // "pyproject.toml") = Some (render_pyproject name) ∧
  read_text cwd fs' (P // "Makefile") = Some MAKEFILE_TEMPLATE ∧
  read_text cwd fs' (P // ".gitignore") = Some GITIGNORE_TEMPLATE ∧
  read_text cwd fs' (S // "base.py") = Some BASE_PY_TEMPLATE ∧
  read_text cwd fs' (S // "config.py") = Some CONFIG_PY_TEMPLATE ∧
  read_text cwd fs' (P // "tests" // "__init__.py") = Some "" ∧
  read_text cwd fs' (P // "tests" // "unit" // "__init__.py") = Some "" ∧
  read_text cwd fs' (P // "tests" // "integration" // "__init__.py") = Some "".
Proof.
  intros (fs0 & _ & Hw)%create_project_Ok. cbv zeta.
  rewrite files_children in Hw. cbv zeta in Hw. rewrite !div_child by reflexivity.
  set (P := project_dir name output_dir) in *. set (S := src_dir name output_dir) in *.
  repeat split.
  - eapply (write_all_last_wins cwd _ []); [reflexivity| |exact Hw].
    repeat constructor; cbn [fst]; solve_apart.
  - eapply (write_all_last_wins cwd _ [_]); [reflexivity| |exact Hw].
    repeat constructor; cbn [fst]; solve_apart.
  - eapply (write_all_last_wins cwd _ [_; _]); [reflexivity| |exact Hw].
    repeat constructor; cbn [fst]; solve_apart.
  - eapply (write_all_last_wins cwd _ [_; _; _; _]); [reflexivity| |exact Hw].
    repeat constructor; cbn [fst]; solve_apart.
  - eapply (write_all_last_wins cwd _ [_; _; _; _; _]); [reflexivity| |exact Hw].
    repeat constructor; cbn [fst]; solve_apart.
  - eapply (write_all_last_wins cwd _ [_; _; _; _; _; _]); [reflexivity| |exact Hw].
    repeat constructor; cbn [fst]; solve_apart.
  - eapply (write_all_last_wins cwd _ [_; _; _; _; _; _; _]); [reflexivity| |exact Hw].
    repeat constructor; cbn [fst]; solve_apart.
  - eapply (write_all_last_wins cwd _ [_; _; _; _; _; _; _; _]); [reflexivity| |exact Hw].
    repeat constructor; cbn [fst]; solve_apart.
Qed.

End Contents.

(* ===================================================================== *)
(** * Properties of create_project                                        *)
(* ===================================================================== *)

Section Properties.
Variable cwd : list string.

(** C5: a file that is already at a sub-package's marker path keeps its
    content, whatever it is, whether the run completes or stops on an
    error: the loop writes a marker only where nothing exists, and none of
    the nine later writes goes to that path. *)
Theorem subpackage_marker_kept name output_dir fs sub data :
  sub ∈ subpackages →
  let marker := src_dir name output_dir // sub // "__init__.py" in
  read_text cwd fs marker = Some data →
  read_text cwd (create_project cwd name output_dir fs).1 marker = Some data.
Proof.
  intros Hsub marker Hread.
  destruct (create_project cwd name output_dir fs) as [fs' r] eqn:E. cbn [fst].
  rewrite create_project_steps in E.
  apply bind_inv in E as (fs0 & r0 & Hloop & Hk).
  apply for_each_make_package in Hloop as [Hgrow _].
  pose proof (read_text_grows cwd _ _ _ _ Hgrow Hread) as Hread0.
  destruct r0 as [[]|e]; [|by destruct Hk as [-> _]].
  eapply write_all_frame; [|exact Hread0|exact Hk].
  rewrite files_children. cbv zeta. subst marker.
  set (P := project_dir name output_dir). set (S := src_dir name output_dir).
  unfold subpackages in Hsub.
  repeat (apply elem_of_cons in Hsub as [->|Hsub]);
    [..|by apply elem_of_nil in Hsub];
    rewrite !div_child by reflexivity;
    repeat constructor; cbn [fst]; solve_apart.
Qed.

(** C9: when the run completes, the build helper and the ignore list hold
    their templates, two constants in which neither the name, nor the
    package name, nor the output directory occurs. *)
Theorem makefile_and_gitignore_fixed name output_dir fs fs' :
  create_project cwd name output_dir fs = (fs', Ok tt) →
  read_text cwd fs' (project_dir name output_dir // "Makefile")
    = Some MAKEFILE_TEMPLATE ∧
  read_text cwd fs' (project_dir name output_dir // ".gitignore")
    = Some GITIGNORE_TEMPLATE.
Proof.
  intros H. apply create_project_contents in H. cbv zeta in H. tauto.
Qed.

(** C3: after a run that completed, a second run with the same arguments
    completes too, and the manifest, the build helper, the ignore list,
    [base.py] and [config.py] hold after the second run exactly what they
    held after the first. *)
Theorem create_project_twice name output_dir fs fs1 :
  create_project cwd name output_dir fs = (fs1, Ok tt) →
  ∃ fs2,
    create_project cwd name output_dir fs1 = (fs2, Ok tt) ∧
    Forall (λ w : Path * string,
              read_text cwd fs1 w.1 = Some w.2 ∧ read_text cwd fs2 w.1 = Some w.2)
      [ (project_dir name output_dir // "pyproject.toml", render_pyproject name);
        (project_dir name output_dir // "Makefile", MAKEFILE_TEMPLATE);
        (project_dir name output_dir // ".gitignore", GITIGNORE_TEMPLATE);
        (src_dir name output_dir // "base.py", BASE_PY_TEMPLATE);
        (src_dir name output_dir // "config.py", CONFIG_PY_TEMPLATE) ].
Proof.
  intros H1. pose proof H1 as (fs0 & Hloop & Hwrites)%create_project_Ok.
  apply for_each_make_package in Hloop as [_ Hdirs]. specialize (Hdirs eq_refl).
  assert (Forall (packaged cwd fs1) (directories name output_dir)) as Hdirs1.
  { eapply Forall_impl; [done|]. intros d. apply packaged_extends.
    by eapply write_all_extends. }
  destruct (write_all_again cwd (files name output_dir) fs1) as [fs2 H2'].
  { by eapply write_all_files. }
  assert (create_project cwd name output_dir fs1 = (fs2, Ok tt)) as H2.
  { rewrite create_project_steps.
    by rewrite (bind_run _ _ _ _ _ (for_each_again cwd _ fs1 Hdirs1)). }
  exists fs2. split; [done|].
  apply create_project_contents in H1, H2. cbv zeta in H1, H2.
  repeat constructor; cbn [fst snd]; tauto.
Qed.

End Properties.

(* ===================================================================== *)
(** * The package name as a path                                          *)
(* ===================================================================== *)

Lemma h2u_slash c : Ascii.eqb (hyphen_to_underscore c) "/" = Ascii.eqb c "/".
Proof.
  unfold hyphen_to_underscore. destruct (Ascii.eqb_spec c "-") as [->|]; done.
Qed.

Lemma h2u_dot c : Ascii.eqb (hyphen_to_underscore c) "." = Ascii.eqb c ".".
Proof.
  unfold hyphen_to_underscore. destruct (Ascii.eqb_spec c "-") as [->|]; done.
Qed.

Lemma leading_slashes_map s :
  Pathlib.leading_slashes (Str.map hyphen_to_underscore s) = Pathlib.leading_slashes s.
Proof.
  induction s as [|c s IH]; [done|]. cbn. rewrite h2u_slash.
  destruct (Ascii.eqb c "/"); [by rewrite IH|done].
Qed.

Lemma root_of_package_name name :
  Pathlib.root_of (package_name name) = Pathlib.root_of name.
Proof.
  unfold package_name, Pathlib.root_of. by rewrite replace_hyphen, leading_slashes_map.
Qed.

Lemma split_slash_map s :
  Str.split_slash (Str.map hyphen_to_underscore s) =
    Str.map hyphen_to_underscore <$> Str.split_slash s.
Proof.
  induction s as [|c s IH]; [done|]. cbn. rewrite h2u_slash, IH.
  destruct (Ascii.eqb c "/"); [done|].
  by destruct (Str.split_slash s).
Qed.

Lemma map_eq_dot x : String.eqb (Str.map hyphen_to_underscore x) "." = String.eqb x ".".
Proof.
  destruct x as [|c [|c' x]]; [done|..]; cbn; rewrite h2u_dot;
    by destruct (Ascii.eqb c ".").
Qed.

Lemma map_eq_dotdot x : Str.map hyphen_to_underscore x = ".." ↔ x = "..".
Proof.
  rewrite <- !String.eqb_eq.
  destruct x as [|c [|c' [|c'' x]]]; [done|..]; cbn; rewrite ?h2u_dot;
    destruct (Ascii.eqb c "."); try done; destruct (Ascii.eqb c' "."); done.
Qed.

Lemma keep_map x : Pathlib.keep (Str.map hyphen_to_underscore x) = Pathlib.keep x.
Proof.
  unfold Pathlib.keep. rewrite map_eq_dot. by destruct x.
Qed.

Lemma filter_keep_map xs :
  List.filter Pathlib.keep (Str.map hyphen_to_underscore <$> xs) =
    Str.map hyphen_to_underscore <$> List.filter Pathlib.keep xs.
Proof.
  induction xs as [|x xs IH]; [done|]. cbn. rewrite keep_map, IH.
  by destruct (Pathlib.keep x).
Qed.

(** The parts of the package name are those of the name, each with its
    hyphens replaced. *)
Lemma parts_of_package_name name :
  Pathlib.parts_of (package_name name) =
    Str.map hyphen_to_underscore <$> Pathlib.parts_of name.
Proof.
  unfold package_name, Pathlib.parts_of.
  by rewrite replace_hyphen, split_slash_map, filter_keep_map.
Qed.

Lemma package_name_dotdot name :
  ".." ∈ Pathlib.parts_of (package_name name) → ".." ∈ Pathlib.parts_of name.
Proof.
  rewrite parts_of_package_name. intros (x & Hx & Hin)%list_elem_of_fmap.
  symmetry in Hx. apply (proj1 (map_eq_dotdot x)) in Hx. by subst.
Qed.

(** Resolution of components free of double dots only descends. *)
Lemma walk_plain fs cur q w :
  ".." ∉ q → walk fs cur q = Ok w → w = cur ++ q.
Proof.
  revert cur. induction q as [|c q IH]; intros cur Hq.
  - intros [= <-]. by rewrite app_nil_r.
  - apply not_elem_of_cons in Hq as [Hc Hq]. cbn. rewrite decide_False by done.
    destruct (fs !! (cur ++ [c])) as [[|?]|]; [|done|done].
    intros H%IH; [|done]. by rewrite H, <- app_assoc.
Qed.

Section Suffix.
Variable cwd : list string.

Lemma locate_suffix fs p q a t :
  parts p = q ++ a → a ≠ [] → ".." ∉ a → locate cwd fs p = Ok t →
  ∃ w, walk fs (origin cwd p) q = Ok w ∧ t = w ++ a.
Proof.
  intros Hp Ha Hdd. destruct a as [|x a0 _] using rev_ind; [done|].
  apply not_elem_of_app in Hdd as [Hdd Hx]. apply not_elem_of_cons in Hx as [Hx _].
  unfold locate. rewrite Hp, app_assoc, last_snoc, removelast_last, walk_app.
  destruct (walk fs (origin cwd p) q) as [w|]; [|done].
  destruct (walk fs w a0) as [w1|] eqn:E; [|done].
  apply walk_plain in E as ->; [|done]. rewrite decide_False by done.
  intros [= <-]. exists w. by rewrite <- app_assoc.
Qed.

(** Two paths that go the same way and then part, without double dots
    after the common stretch, name different places. *)
Lemma apart_suffix p p' q a a' :
  root p = root p' → parts p = q ++ a → parts p' = q ++ a' →
  a ≠ [] → a' ≠ [] → ".." ∉ a → ".." ∉ a' → a ≠ a' → apart cwd p p'.
Proof.
  intros Hr Hp Hp' Ha Ha' Hd Hd' Hne fs t H1 H2.
  destruct (locate_suffix fs p q a t Hp Ha Hd H1) as (w & Hw & ->).
  destruct (locate_suffix fs p' q a' _ Hp' Ha' Hd' H2) as (w' & Hw' & H3).
  assert (origin cwd p = origin cwd p') as Ho by (unfold origin; by rewrite Hr).
  rewrite Ho, Hw' in Hw. injection Hw as ->. by apply app_inv_head in H3.
Qed.

End Suffix.

Lemma div_absolute p s :
  Pathlib.root_of s ≠ "" → p // s = Pathlib.of_string s.
Proof.
  intros H. unfold Pathlib.div. cbn [root Pathlib.of_string].
  destruct (String.eqb_spec (Pathlib.root_of s) ""); done.
Qed.

Ltac no_dotdot :=
  repeat first
    [ assumption
    | apply not_elem_of_nil
    | apply not_elem_of_app; split
    | apply not_elem_of_cons; split; [discriminate|] ].

Section TopMarker.
Variable cwd : list string.

(** For a name without a double-dot component, the top-level package marker
    and the markers of the test directories are different files. *)
Lemma top_marker_apart name output_dir under :
  ".." ∉ Pathlib.parts_of name →
  under = [] ∨ under = ["unit"] ∨ under = ["integration"] →
  ∀ p', root p' = root (project_dir name output_dir) →
        parts p' = parts (project_dir name output_dir) ++ "tests" :: under ++ ["__init__.py"] →
        apart cwd (child (src_dir name output_dir) "__init__.py") p'.
Proof.
  intros Hdd Hunder p' Hr' Hp'.
  assert (".." ∉ Pathlib.parts_of (package_name name)) as Hdd'.
  { intros H. by apply Hdd, package_name_dotdot. }
  assert (".." ∉ under) as Hu.
  { destruct Hunder as [->|[->| ->]]; no_dotdot. }
  unfold src_dir, project_dir in *. rewrite (div_child _ "src") by reflexivity.
  destruct (decide (Pathlib.root_of name = "")) as [Hrel|Habs].
  - rewrite (div_relative _ name) in * by done.
    rewrite (div_relative _ (package_name name)) by by rewrite root_of_package_name.
    cbn [root parts child] in *.
    eapply (apart_suffix cwd _ _ (parts output_dir ++ Pathlib.parts_of name)
              ("src" :: Pathlib.parts_of (package_name name) ++ ["__init__.py"])
              ("tests" :: under ++ ["__init__.py"])).
    + done.
    + cbn. by rewrite <- !app_assoc.
    + done.
    + done.
    + done.
    + no_dotdot.
    + no_dotdot.
    + done.
  - rewrite (div_absolute _ name) in * by done.
    rewrite (div_absolute _ (package_name name)) by by rewrite root_of_package_name.
    cbn [root parts child Pathlib.of_string] in *.
    eapply (apart_suffix cwd _ _ []
              (Pathlib.parts_of (package_name name) ++ ["__init__.py"])
              (Pathlib.parts_of name ++ "tests" :: under ++ ["__init__.py"])).
    + cbn. by rewrite root_of_package_name.
    + done.
    + done.
    + by destruct (Pathlib.parts_of (package_name name)).
    + by destruct (Pathlib.parts_of name).
    + no_dotdot.
    + no_dotdot.
    + intros H. apply (f_equal length) in H.
      rewrite parts_of_package_name, !length_app, length_fmap in H. cbn in H.
      rewrite length_app in H. cbn in H. lia.
Qed.

(** The ninth file: the top-level package marker holds its rendered
    template when the name has no double-dot component. *)
Lemma create_project_top_marker name output_dir fs fs' :
  ".." ∉ Pathlib.parts_of name →
  create_project cwd name output_dir fs = (fs', Ok tt) →
  read_text cwd fs' (src_dir name output_dir // "__init__.py") = Some (render_init name).
Proof.
  intros Hdd (fs0 & _ & Hw)%create_project_Ok.
  rewrite files_children in Hw. cbv zeta in Hw. rewrite !div_child by reflexivity.
  eapply (write_all_last_wins cwd _ [_; _; _]); [reflexivity| |exact Hw].
  repeat constructor; cbn [fst]; try solve_apart.
  - apply (top_marker_apart name output_dir []); [done|by left|done|].
    cbn. by rewrite <- app_assoc.
  - apply (top_marker_apart name output_dir ["unit"]); [done|by right; left|done|].
    cbn. by rewrite <- !app_assoc.
  - apply (top_marker_apart name output_dir ["integration"]); [done|by right; right|done|].
    cbn. by rewrite <- !app_assoc.
Qed.

End TopMarker.

(* ===================================================================== *)
(** * Well-formed file systems and plain paths                            *)
(* ===================================================================== *)





Lemma adds_dirs_to_refl target fs : adds_dirs_to target fs fs.
Proof. intros q. by left. Qed.

Lemma adds_dirs_to_insert target fs :
  fs !! target = None → adds_dirs_to target fs (<[target := Dir]> fs).
Proof.
  intros H q. destruct (decide (target = q)) as [<-|Hne].
  - right. by rewrite lookup_insert_eq.
  - left. by rewrite lookup_insert_ne.
Qed.

Lemma adds_dirs_to_trans t1 t2 fs1 fs2 fs3 :
  t1 `prefix_of` t2 →
  adds_dirs_to t1 fs1 fs2 → adds_dirs_to t2 fs2 fs3 → adds_dirs_to t2 fs1 fs3.
Proof.
  intros Hpre H12 H23 q.
  destruct (H12 q) as [E|(P1 & E1 & E2)], (H23 q) as [F|(P2 & F1 & F2)].
  - left. congruence.
  - right. repeat split; [done|congruence|done].
  - right. repeat split; [by etrans|done|congruence].
  - congruence.
Qed.





Section Plain.
Variable cwd : list string.



End Plain.

Section PlainSteps.
Variable cwd : list string.

Lemma canon_child p c : canon cwd (child p c) = canon cwd p ++ [c].
Proof. unfold canon. cbn. by rewrite app_assoc. Qed.

Lemma plain_child p c : plain p → c ≠ ".." → plain (child p c).
Proof.
  unfold plain. cbn. intros Hp Hc. apply not_elem_of_app; split; [done|].
  apply not_elem_of_cons; split; [done|apply not_elem_of_nil].
Qed.




(** The directories [D] to make and the files [F] to write, as places: no
    file is on the way to a directory. *)
Variables D F : list (list string).
Hypothesis clear : ∀ f d, f ∈ F → d ∈ D → ¬ f `prefix_of` d.






End PlainSteps.

(* ===================================================================== *)
(** * When create_project completes                                       *)
(* ===================================================================== *)



Section Completes.
Variable cwd : list string.

Ltac in_list :=
  repeat first [ apply list_elem_of_here | apply list_elem_of_further ].


End Completes.

Lemma tidy_removelast fs p :
  tidy fs → is_Some (fs !! p) → fs !! removelast p = Some Dir.
Proof. intros [_ H] [n Hn]. by apply H in Hn. Qed.

Lemma project_dirs_under B pp d : d ∈ project_dirs B pp → B `prefix_of` d.
Proof.
  unfold project_dirs. intros Hd.
  repeat (apply elem_of_cons in Hd as [->|Hd]); try (by apply elem_of_nil in Hd);
    by apply prefix_app_r.
Qed.

Lemma project_files_under B pp f : f ∈ project_files B pp → B `prefix_of` f.
Proof.
  unfold project_files. intros Hf.
  repeat (apply elem_of_cons in Hf as [->|Hf]); try (by apply elem_of_nil in Hf);
    by apply prefix_app_r.
Qed.

Section Relative.
Variable cwd : list string.

Lemma project_dir_relative name output_dir :
  Pathlib.root_of name = "" →
  project_dir name output_dir =
    mkPath (root output_dir) (parts output_dir ++ Pathlib.parts_of name).
Proof. intros H. unfold project_dir. by rewrite div_relative. Qed.

Lemma src_dir_relative name output_dir :
  Pathlib.root_of name = "" →
  src_dir name output_dir =
    mkPath (root output_dir)
      ((parts output_dir ++ Pathlib.parts_of name)
         ++ "src" :: Pathlib.parts_of (package_name name)).
Proof.
  intros H. unfold src_dir. rewrite project_dir_relative by done.
  rewrite (div_child _ "src") by reflexivity.
  rewrite div_relative by by rewrite root_of_package_name.
  cbn. by rewrite <- app_assoc.
Qed.



Lemma origin_dir fs p : tidy fs → fs !! cwd = Some Dir → fs !! origin cwd p = Some Dir.
Proof. intros [Hroot _] Hcwd. unfold origin. by case_decide. Qed.

End Relative.


Section MissingRoot.
Variable cwd : list string.


End MissingRoot.

Section Directories.
Variable cwd : list string.

(** After a run that completed, the eight directories are there. *)
Lemma create_project_dirs name output_dir fs fs' :
  create_project cwd name output_dir fs = (fs', Ok tt) →
  Forall (λ d, is_dir cwd fs' d = true) (directories name output_dir).
Proof.
  intros (fs0 & Hloop & Hw)%create_project_Ok.
  apply for_each_make_package in Hloop as [_ Hdirs]. specialize (Hdirs eq_refl).
  eapply Forall_impl; [done|]. intros d [Hd _]. cbn.
  eapply is_dir_extends; [|done]. by eapply write_all_extends.
Qed.

(** C4: the package name is the name with every hyphen turned into an
    underscore and every other character left as it is: the two have the
    same length and agree position by position up to that replacement; the
    name [my-project] gives the source package directory
    [src/my_project] under the project directory. *)
Theorem package_name_replaces_hyphens name :
  String.length (package_name name) = String.length name ∧
  (∀ i, String.get i (package_name name)
        = hyphen_to_underscore <$> String.get i name) ∧
  package_name "my-project" = "my_project" ∧
  ∀ output_dir,
    root (src_dir "my-project" output_dir) = root output_dir ∧
    parts (src_dir "my-project" output_dir)
      = parts output_dir ++ ["my-project"; "src"; "my_project"].
Proof.
  unfold package_name. rewrite replace_hyphen.
  split; [apply map_length|]. split; [intros i; apply map_get|].
  split; [done|]. intros output_dir. split; [done|].
  cbn. by rewrite <- !app_assoc.
Qed.

(** C7: the rendered manifest is the template's text before the field,
    the name as it is, and the template's text after the field; two
    different names therefore never render to the same manifest. *)
Theorem manifest_injective n1 n2 :
  n1 ≠ n2 →
  render_pyproject n1 ≠ render_pyproject n2 ∧
  render_pyproject n1 =
    before_brace PYPROJECT_TEMPLATE +:+ n1 +:+ after_brace PYPROJECT_TEMPLATE.
Proof.
  intros Hne. split; [|apply render_pyproject_split].
  intros H. by apply Hne, render_pyproject_inj.
Qed.


(** C8: for the name [widget] and the output directory [/tmp/x], after a
    run the manifest [/tmp/x/widget/pyproject.toml] is a file whose text
    contains [name = "widget"], and the top-level package marker
    [/tmp/x/widget/src/widget/__init__.py] is a file whose text contains
    [widget package]. *)
Theorem widget_example fs fs' :
  create_project cwd "widget" (Pathlib.of_string "/tmp/x") fs = (fs', Ok tt) →
  ∃ manifest marker,
    read_text cwd fs' (Pathlib.of_string "/tmp/x/widget/pyproject.toml")
      = Some manifest ∧
    Str.contains (Str.py "name = `widget`") manifest = true ∧
    read_text cwd fs' (Pathlib.of_string "/tmp/x/widget/src/widget/__init__.py")
      = Some marker ∧
    Str.contains "widget package" marker = true.
Proof.
  intros Hrun.
  pose proof (create_project_contents cwd _ _ _ _ Hrun) as (Hm & _). cbv zeta in Hm.
  assert (".." ∉ Pathlib.parts_of "widget") as Hdd.
  { apply (bool_decide_unpack _). by vm_compute. }
  pose proof (create_project_top_marker cwd _ _ _ _ Hdd Hrun) as Htop.
  exists (render_pyproject "widget"), (render_init "widget").
  split; [exact Hm|]. split; [by vm_compute|].
  split; [exact Htop|by vm_compute].
Qed.


End Directories.

(* ===================================================================== *)
(** * What a run keeps and where it stops                                 *)
(* ===================================================================== *)

Lemma bind_raise {A B} (m : M A) (k : A → M B) fs fs1 e :
  m fs = (fs1, Raise e) → (m ≫= k) fs = (fs1, Raise e).
Proof. unfold mbind, M_bind, bind. by intros ->. Qed.

Lemma contains_hyphen_map s :
  Str.contains "-" (Str.map hyphen_to_underscore s) = false.
Proof.
  induction s as [|c s IH]; [done|].
  cbn [Str.map Str.contains String.prefix]. rewrite IH, orb_false_r.
  unfold hyphen_to_underscore. destruct (Ascii.eqb_spec c "-") as [->|Hc]; [done|].
  destruct (ascii_dec "-" c) as [<-|]; done.
Qed.

Lemma map_hyphen_twice s :
  Str.map hyphen_to_underscore (Str.map hyphen_to_underscore s)
    = Str.map hyphen_to_underscore s.
Proof.
  induction s as [|c s IH]; [done|]. cbn. rewrite IH. f_equal.
  unfold hyphen_to_underscore. destruct (Ascii.eqb_spec c "-") as [->|Hc]; [done|].
  by destruct (Ascii.eqb_spec c "-").
Qed.

Section Keeps.
Variable cwd : list string.

Lemma create_project_extends name output_dir fs :
  extends fs (create_project cwd name output_dir fs).1.
Proof.
  destruct (create_project cwd name output_dir fs) as [fs' r] eqn:E. cbn [fst].
  rewrite create_project_steps in E.
  apply bind_inv in E as (fs0 & r0 & Hloop & Hk).
  apply for_each_make_package in Hloop as [Hgrow _].
  apply subseteq_extends in Hgrow.
  destruct r0 as [[]|e]; [|by destruct Hk as [-> _]].
  eapply extends_trans; [done|]. by eapply write_all_extends.
Qed.

(** A regular file where a directory is to be made stops [mkdir], also
    with [exist_ok]; nothing is changed. *)
Lemma mkdir_file p data fs :
  read_text cwd fs p = Some data →
  mkdir cwd p true true fs = (fs, Raise FileExistsError).
Proof.
  intros (t & Hl & Ht)%read_text_spec.
  assert (is_dir cwd fs p = false) as Hd.
  { unfold is_dir, os_stat. by rewrite Hl, Ht. }
  assert (mkPath (root p) (rev (rev (parts p))) = p) as E.
  { rewrite rev_involutive. by destruct p. }
  unfold mkdir. destruct (rev (parts p)) as [|c rp];
    cbn [mkdir_parents]; cbv zeta; rewrite E; unfold os_mkdir;
    by rewrite Hl, Ht, Hd.
Qed.

(** An error other than a missing parent on the way to a directory stops
    [mkdir]; nothing is changed. *)
Lemma mkdir_raise p e fs :
  locate cwd fs p = Raise e → e ≠ FileNotFoundError →
  mkdir cwd p true true fs = (fs, Raise e).
Proof.
  intros Hl He.
  assert (is_dir cwd fs p = false) as Hd.
  { unfold is_dir, os_stat. by rewrite Hl. }
  assert (mkPath (root p) (rev (rev (parts p))) = p) as E.
  { rewrite rev_involutive. by destruct p. }
  unfold mkdir. destruct (rev (parts p)) as [|c rp];
    cbn [mkdir_parents]; cbv zeta; rewrite E; unfold os_mkdir;
    rewrite Hl; destruct e; try done; by rewrite Hd.
Qed.

(** The run stops at the first directory when [mkdir] raises there. *)
Lemma create_project_first_mkdir name output_dir fs e :
  mkdir cwd (project_dir name output_dir // "configs") true true fs = (fs, Raise e) →
  create_project cwd name output_dir fs = (fs, Raise e).
Proof.
  intros H. rewrite create_project_steps. apply bind_raise.
  unfold directories. cbv zeta. cbn [for_each]. apply bind_raise.
  unfold make_package. by apply bind_raise.
Qed.

Lemma walk_dir fs cur q w :
  tidy fs → fs !! cur = Some Dir → walk fs cur q = Ok w → fs !! w = Some Dir.
Proof.
  intros Ht. revert cur. induction q as [|c q IH]; intros cur Hcur.
  - by intros [= <-].
  - cbn. case_decide.
    + apply IH. apply tidy_removelast; [done|by rewrite Hcur].
    + destruct (fs !! (cur ++ [c])) as [[|data]|] eqn:E; [|done|done]. by apply IH.
Qed.

(** Resolution cannot pass through a path that names a regular file. *)
Lemma walk_through_file fs p data rest :
  tidy fs → fs !! cwd = Some Dir →
  read_text cwd fs p = Some data →
  walk fs (origin cwd p) (parts p ++ rest) = Raise NotADirectoryError.
Proof.
  intros Ht Hcwd (t & Hl & Hf)%read_text_spec.
  pose proof (origin_dir cwd fs p Ht Hcwd) as Ho.
  unfold locate in Hl. revert Hl.
  destruct (parts p) as [|c qs _] using rev_ind.
  - cbn. intros [= <-]. congruence.
  - rewrite last_snoc, removelast_last.
    destruct (walk fs (origin cwd p) qs) as [d|] eqn:Ew; [|done].
    pose proof (walk_dir _ _ _ _ Ht Ho Ew) as Hd.
    case_decide as Hc.
    + intros [= <-].
      assert (fs !! removelast d = Some Dir); [|congruence].
      apply tidy_removelast; [done|by rewrite Hd].
    + intros [= <-]. rewrite <- app_assoc, walk_app, Ew. cbn.
      by rewrite decide_False, Hf.
Qed.

(** X2: whatever the arguments, and whether the run completes or stops on
    an error, nothing that was there is removed or changes its kind: every
    directory is still a directory and every regular file is still a
    regular file (its content may have been overwritten). *)
Theorem create_project_keeps_entries name output_dir fs p n :
  fs !! p = Some n →
  ∃ n', (create_project cwd name output_dir fs).1 !! p = Some n' ∧ kind n' = kind n.
Proof. apply create_project_extends. Qed.

(** X13: after a run that completed the eight directories of the skeleton
    are directories, for every name and output directory. *)
Theorem eight_directories_made name output_dir fs fs' :
  create_project cwd name output_dir fs = (fs', Ok tt) →
  let P := project_dir name output_dir in
  let S := src_dir name output_dir in
  Forall (λ d, is_dir cwd fs' d = true)
    [ P // "configs"; P // "scripts"; P // "tests" // "unit";
      P // "tests" // "integration"; S // "entities"; S // "services";
      S // "workflows"; S // "infrastructure" ].
Proof. intros H. by apply create_project_dirs in H. Qed.

(** X5: when [configs] in the project directory is a regular file, the
    first [mkdir] of the loop raises [FileExistsError] ([exist_ok] only
    accepts a directory) and the run stops with the file system as it
    was. *)
Theorem configs_file_stops_the_run name output_dir fs data :
  read_text cwd fs (project_dir name output_dir // "configs") = Some data →
  create_project cwd name output_dir fs = (fs, Raise FileExistsError).
Proof.
  intros H. apply create_project_first_mkdir. by eapply mkdir_file.
Qed.

(** X4: when the output directory is a regular file and the name is a
    relative path, the first [mkdir] of the loop raises
    [NotADirectoryError] and the run stops with the file system as it
    was. *)
Theorem output_file_stops_the_run name output_dir fs data :
  tidy fs → fs !! cwd = Some Dir →
  Pathlib.root_of name = "" →
  read_text cwd fs output_dir = Some data →
  create_project cwd name output_dir fs = (fs, Raise NotADirectoryError).
Proof.
  intros Ht Hcwd Hrel Hread. apply create_project_first_mkdir.
  apply mkdir_raise; [|done].
  rewrite project_dir_relative by done. rewrite div_child by reflexivity.
  rewrite locate_child by done. cbn [root parts].
  change (origin cwd {| root := root output_dir;
                        parts := parts output_dir ++ Pathlib.parts_of name |})
    with (origin cwd output_dir).
  by rewrite (walk_through_file fs output_dir data).
Qed.

(** X6: a directory at the path of one of the nine files keeps the run
    from completing: the run raises, and the directory is still there. *)
Theorem directory_stops_the_run name output_dir fs w :
  w ∈ files name output_dir →
  is_dir cwd fs w.1 = true →
  ∃ e, (create_project cwd name output_dir fs).2 = Raise e ∧
       is_dir cwd (create_project cwd name output_dir fs).1 w.1 = true.
Proof.
  intros Hw Hd.
  pose proof (create_project_extends name output_dir fs) as Hext.
  pose proof (is_dir_extends cwd _ _ _ Hext Hd) as Hd'.
  destruct (create_project cwd name output_dir fs) as [fs' [[]|e]] eqn:E;
    cbn [fst snd] in *; [exfalso|eauto].
  apply create_project_Ok in E as (fs0 & _ & Hws).
  apply write_all_files in Hws. rewrite Forall_forall in Hws.
  destruct (Hws w Hw) as (t & c & Hl & Hf).
  apply is_dir_spec in Hd' as (t' & Hl' & Hdir). congruence.
Qed.

(** X11: an absolute name discards the output directory: the project
    directory is the name itself, the source package directory is the
    package name itself (not a directory under the project's [src]), and
    the run is the same whatever output directory is given. *)
Theorem absolute_name_discards_output_dir name output_dir output_dir' fs :
  Pathlib.root_of name ≠ "" →
  project_dir name output_dir = Pathlib.of_string name ∧
  src_dir name output_dir = Pathlib.of_string (package_name name) ∧
  create_project cwd name output_dir fs = create_project cwd name output_dir' fs.
Proof.
  intros Habs.
  assert (∀ o, project_dir name o = Pathlib.of_string name) as HP.
  { intros o. unfold project_dir. by apply div_absolute. }
  assert (∀ o, src_dir name o = Pathlib.of_string (package_name name)) as HS.
  { intros o. unfold src_dir. apply div_absolute. by rewrite root_of_package_name. }
  split; [done|]. split; [done|].
  unfold create_project, directories. cbv zeta. by rewrite !HP, !HS.
Qed.

End Keeps.

(** X9: for a relative name the source package directory lies under the
    project directory's [src], one level per component of the name, each
    component with its hyphens replaced. *)
Theorem src_dir_layout name output_dir :
  Pathlib.root_of name = "" →
  root (src_dir name output_dir) = root output_dir ∧
  parts (src_dir name output_dir) =
    parts (project_dir name output_dir)
      ++ "src" :: (package_name <$> Pathlib.parts_of name).
Proof.
  intros Hrel. rewrite src_dir_relative, project_dir_relative by done.
  split; [done|]. cbn [parts]. rewrite parts_of_package_name.
  do 2 f_equal. apply list_fmap_ext. intros _ x _.
  unfold package_name. by rewrite replace_hyphen.
Qed.

(** X10: the package name holds no hyphen, and computing the package name
    of a package name changes nothing. *)
Theorem package_name_has_no_hyphen name :
  Str.contains "-" (package_name name) = false ∧
  package_name (package_name name) = package_name name.
Proof.
  unfold package_name. rewrite !replace_hyphen.
  split; [apply contains_hyphen_map|apply map_hyphen_twice].
Qed.

(* ===================================================================== *)
(** * A second run                                                        *)
(* ===================================================================== *)

Lemma inserts_snoc l w fs :
  inserts (l ++ [w]) fs = <[w.1 := File w.2]> (inserts l fs).
Proof. unfold inserts. by rewrite foldl_snoc. Qed.

(** A write is undone by a later write to the same place. *)
Lemma inserts_overwritten l t data data' fs :
  <[t := File data]> (inserts l (<[t := File data']> fs))
    = <[t := File data]> (inserts l fs).
Proof.
  revert fs. induction l as [|[t0 d0] l IH]; intros fs.
  - cbn. apply insert_insert_eq.
  - cbn [inserts foldl fst snd]. fold (inserts l).
    destruct (decide (t0 = t)) as [->|Hne].
    + by rewrite insert_insert_eq.
    + rewrite insert_insert_ne by done. apply IH.
Qed.

Lemma inserts_twice l fs : inserts l (inserts l fs) = inserts l fs.
Proof.
  revert fs. induction l as [|[t d] l IH] using rev_ind; intros fs; [done|].
  rewrite !inserts_snoc. cbn [fst snd].
  by rewrite inserts_overwritten, IH.
Qed.

Lemma inserts_file l fs t :
  t ∈ l.*1 → is_regular (inserts l fs !! t).
Proof.
  revert fs. induction l as [|[t0 d0] l IH] using rev_ind; intros fs.
  - by intros ?%elem_of_nil.
  - rewrite fmap_app, inserts_snoc. cbn [fst snd fmap list_fmap].
    intros Hin. destruct (decide (t0 = t)) as [->|Hne].
    + by rewrite lookup_insert_eq.
    + rewrite lookup_insert_ne by done. apply IH.
      apply elem_of_app in Hin as [?|Hin]; [done|].
      apply list_elem_of_singleton in Hin. congruence.
Qed.

Lemma extends_insert_file fs g t data :
  extends fs g → extends (<[t := File data]> fs) (<[t := File data]> g).
Proof.
  intros Hext p n. destruct (decide (t = p)) as [->|Hne].
  - rewrite !lookup_insert_eq. intros [= <-]. eauto.
  - rewrite !lookup_insert_ne by done. apply Hext.
Qed.

Section Again.
Variable cwd : list string.

(** Writes that succeeded are a list of places written in order, and they
    succeed in the same places on every file system that has the
    directories of the first and no directory at one of these places. *)
Lemma write_all_replay ws fs fs' :
  write_all cwd ws fs = (fs', Ok tt) →
  ∃ l, fs' = inserts l fs ∧
       ∀ g, extends fs g → Forall (λ t, g !! t ≠ Some Dir) l.*1 →
            write_all cwd ws g = (inserts l g, Ok tt).
Proof.
  revert fs. induction ws as [|[p d] ws IH]; intros fs.
  - intros [= <-]. exists []. split; [done|]. by intros g _ _.
  - intros (fs1 & [] & Hw & Hk)%bind_Ok. cbn [fst snd] in Hw.
    apply write_text_inv in Hw as [(t & Hl & Ht & -> & _)|[_ [e [=]]]].
    destruct (IH _ Hk) as (l & -> & Hl').
    exists ((t, d) :: l). split; [done|].
    intros g Hext Hg. cbn [fmap list_fmap fst] in Hg.
    apply Forall_cons in Hg as [Hgt Hg].
    assert (write_text cwd p d g = (<[t := File d]> g, Ok tt)) as Hwg.
    { unfold write_text. rewrite (locate_extends cwd _ _ _ _ Hext Hl).
      by destruct (g !! t) as [[|?]|]. }
    unfold write_all. cbn [for_each fst snd]. rewrite (bind_run _ _ _ _ _ Hwg).
    apply Hl'; [by apply extends_insert_file|].
    eapply Forall_impl; [done|]. intros t' Ht'. cbn in Ht'.
    destruct (decide (t = t')) as [->|Hne].
    + by rewrite lookup_insert_eq.
    + by rewrite lookup_insert_ne.
Qed.

Lemma write_all_twice ws fs fs' :
  write_all cwd ws fs = (fs', Ok tt) → write_all cwd ws fs' = (fs', Ok tt).
Proof.
  intros H. pose proof (write_all_extends cwd _ _ _ _ H) as Hext.
  destruct (write_all_replay _ _ _ H) as (l & -> & Hl).
  rewrite <- (inserts_twice l fs) at 2. apply Hl; [done|].
  apply Forall_forall. intros t Ht Hd.
  pose proof (inserts_file l fs t Ht) as Hf. by rewrite Hd in Hf.
Qed.

(** X3: a second run with the same arguments, after a run that completed,
    completes and leaves the file system exactly as the first run left
    it: no directory is made, no sub-package marker is written, and the
    nine files are written again with the content they already hold. *)
Theorem second_run_changes_nothing name output_dir fs fs1 :
  create_project cwd name output_dir fs = (fs1, Ok tt) →
  create_project cwd name output_dir fs1 = (fs1, Ok tt).
Proof.
  intros (fs0 & Hloop & Hwrites)%create_project_Ok.
  apply for_each_make_package in Hloop as [_ Hdirs]. specialize (Hdirs eq_refl).
  assert (Forall (packaged cwd fs1) (directories name output_dir)) as Hdirs1.
  { eapply Forall_impl; [done|]. intros d. apply packaged_extends.
    by eapply write_all_extends. }
  rewrite create_project_steps.
  rewrite (bind_run _ _ _ _ _ (for_each_again cwd _ fs1 Hdirs1)).
  by eapply write_all_twice.
Qed.

End Again.

(* ===================================================================== *)
(** * Where a run writes                                                  *)
(* ===================================================================== *)







Section Where.
Variable cwd : list string.

(** A path without double dots resolves, if at all, to its own place. *)
Lemma locate_plain_eq fs p t :
  plain p → locate cwd fs p = Ok t → t = canon cwd p.
Proof.
  unfold plain, locate, canon.
  destruct (parts p) as [|c qs _] using rev_ind.
  - cbn. intros _ [= <-]. by rewrite app_nil_r.
  - intros Hp. apply not_elem_of_app in Hp as [Hq Hc].
    apply not_elem_of_cons in Hc as [Hc _].
    rewrite last_snoc, removelast_last.
    destruct (walk fs (origin cwd p) qs) as [d|] eqn:E; [|done].
    apply walk_plain in E as ->; [|done]. rewrite decide_False by done.
    intros [= <-]. by rewrite app_assoc.
Qed.

Lemma os_mkdir_where p fs fs' r :
  plain p → os_mkdir cwd p fs = (fs', r) → adds_dirs_to (canon cwd p) fs fs'.
Proof.
  intros Hp [(t & Hl & Ht & -> & _)|[-> _]]%os_mkdir_inv.
  - apply locate_plain_eq in Hl as ->; [|done]. by apply adds_dirs_to_insert.
  - apply adds_dirs_to_refl.
Qed.

Lemma mkdir_leaf_where exist_ok p fs fs' r :
  plain p → mkdir_leaf cwd exist_ok p fs = (fs', r) →
  adds_dirs_to (canon cwd p) fs fs'.
Proof.
  intros Hp. unfold mkdir_leaf.
  destruct (os_mkdir cwd p fs) as [fs1 [[]|e]] eqn:E.
  - intros [= <- <-]. by eapply os_mkdir_where.
  - destruct e; try destruct (exist_ok && is_dir cwd fs p);
      intros [= <- <-]; apply adds_dirs_to_refl.
Qed.

(** [mkdir] with [parents] makes directories on the way to its path and
    nowhere else, whether it succeeds or not. *)
Lemma mkdir_parents_where r rparts exist_ok fs fs' res :
  plain (mkPath r (rev rparts)) →
  mkdir_parents cwd r rparts exist_ok fs = (fs', res) →
  adds_dirs_to (canon cwd (mkPath r (rev rparts))) fs fs'.
Proof.
  revert exist_ok fs fs' res.
  induction rparts as [|c rp IH]; intros exist_ok fs fs' res Hp;
    cbn [mkdir_parents]; cbv zeta;
    destruct (os_mkdir cwd _ fs) as [fs1 [[]|e]] eqn:E.
  - intros [= <- <-]. by eapply os_mkdir_where.
  - destruct e; try destruct (exist_ok && is_dir cwd fs _);
      intros [= <- <-]; apply adds_dirs_to_refl.
  - intros [= <- <-]. by eapply os_mkdir_where.
  - assert (plain (mkPath r (rev rp))) as Hp0.
    { unfold plain in *. cbn in *. by apply not_elem_of_app in Hp as [? _]. }
    assert (canon cwd (mkPath r (rev rp))
              `prefix_of` canon cwd (mkPath r (rev (c :: rp)))) as Hpre.
    { unfold canon. cbn. rewrite app_assoc. by apply prefix_app_r. }
    destruct e; try (destruct (exist_ok && is_dir cwd fs _);
                     intros [= <- <-]; apply adds_dirs_to_refl).
    destruct (mkdir_parents cwd r rp true fs) as [fs2 [[]|e2]] eqn:E2;
      apply IH in E2; try done.
    + intros H%mkdir_leaf_where; [|done].
      by eapply adds_dirs_to_trans.
    + intros [= <- <-].
      eapply adds_dirs_to_trans; [done|done|apply adds_dirs_to_refl].
Qed.

Lemma mkdir_where p fs fs' r :
  plain p → mkdir cwd p true true fs = (fs', r) →
  adds_dirs_to (canon cwd p) fs fs'.
Proof.
  intros Hp. unfold mkdir. intros H%mkdir_parents_where.
  - rewrite rev_involutive in H. by destruct p.
  - rewrite rev_involutive. by destruct p.
Qed.

Lemma make_package_where d fs fs' r :
  plain d → make_package cwd d fs = (fs', r) → loop_made cwd [d] fs fs'.
Proof.
  intros Hp. unfold make_package. intros (fs1 & r1 & Hm & Hk)%bind_inv.
  apply mkdir_where in Hm; [|done].
  assert (loop_made cwd [d] fs fs1) as H1.
  { intros q. destruct (Hm q) as [E|(Hpre & E1 & E2)]; [by left|right].
    split; [done|]. exists d. split; [apply list_elem_of_here|by left]. }
  destruct r1 as [[]|e]; [|by destruct Hk as [-> _]].
  unfold mbind, M_bind, bind, exists_, when in Hk.
  rewrite (div_child _ "__init__.py") in Hk by reflexivity.
  destruct (Str.contains "src" (Pathlib.str d)) eqn:Hsrc;
    destruct (path_exists cwd fs1 (child d "__init__.py")) eqn:Hex; cbn in Hk;
    try (by injection Hk as <- <-).
  apply write_text_inv in Hk as [(t & Hl & Ht & -> & _)|[-> _]]; [|done].
  assert (fs1 !! t = None) as Hnone.
  { destruct (fs1 !! t) eqn:E; [|done].
    assert (path_exists cwd fs1 (child d "__init__.py") = true); [|congruence].
    apply path_exists_spec. exists t. by rewrite E. }
  apply locate_plain_eq in Hl; [|by apply plain_child].
  rewrite canon_child in Hl. subst t.
  intros q. destruct (decide (q = canon cwd d ++ ["__init__.py"])) as [->|Hne].
  - right. split.
    + destruct (Hm (canon cwd d ++ ["__init__.py"])) as [E|(_ & E1 & E2)]; congruence.
    + exists d. split; [apply list_elem_of_here|right].
      by rewrite lookup_insert_eq.
  - rewrite lookup_insert_ne by done. apply H1.
Qed.

Lemma loop_made_cons d ds fs fs1 fs' :
  loop_made cwd [d] fs fs1 → loop_made cwd ds fs1 fs' →
  loop_made cwd (d :: ds) fs fs'.
Proof.
  intros H1 H2 q.
  destruct (H1 q) as [E1|(N1 & d1 & Hd1 & C1)], (H2 q) as [E2|(N2 & d2 & Hd2 & C2)].
  - left. congruence.
  - right. split; [congruence|]. exists d2.
    split; [by apply list_elem_of_further|done].
  - right. split; [done|]. exists d1. apply list_elem_of_singleton in Hd1 as ->.
    split; [apply list_elem_of_here|]. by rewrite E2.
  - exfalso. destruct C1 as [[C1 _]|[C1 _]]; congruence.
Qed.

Lemma for_each_where ds fs fs' r :
  Forall plain ds → for_each ds (make_package cwd) fs = (fs', r) →
  loop_made cwd ds fs fs'.
Proof.
  intros Hds. revert fs. induction Hds as [|d ds Hd _ IH]; intros fs.
  - intros [= <- <-] q. by left.
  - intros (fs1 & r1 & Hm & Hk)%bind_inv. apply make_package_where in Hm; [|done].
    destruct r1 as [[]|e].
    + eapply loop_made_cons; [done|by apply IH].
    + destruct Hk as [-> _]. eapply loop_made_cons; [done|]. intros q; by left.
Qed.

Lemma write_all_where ws fs fs' r :
  Forall (λ w : Path * string, plain w.1) ws →
  write_all cwd ws fs = (fs', r) → writes_made cwd ws fs fs'.
Proof.
  intros Hws. revert fs. induction Hws as [|[p d] ws Hp _ IH]; intros fs.
  - intros [= <- <-] q. by left.
  - intros (fs1 & r1 & Hw & Hk)%bind_inv. cbn [fst snd] in *.
    assert (writes_made cwd ((p, d) :: ws) fs1 fs') as H2.
    { destruct r1 as [[]|e].
      - apply IH in Hk. intros q.
        destruct (Hk q) as [E|(Hr & w & Hin & ->)]; [by left|right].
        split; [done|]. exists w. split; [by apply list_elem_of_further|done].
      - destruct Hk as [-> _]. intros q. by left. }
    apply write_text_inv in Hw as [(t & Hl & Ht & -> & _)|[-> _]]; [|done].
    apply locate_plain_eq in Hl as ->; [|done].
    intros q. destruct (H2 q) as [E|H]; [|by right].
    destruct (decide (q = canon cwd p)) as [->|Hne].
    + right. rewrite E, lookup_insert_eq. split; [done|].
      exists (p, d). split; [apply list_elem_of_here|done].
    + left. rewrite E. by rewrite lookup_insert_ne.
Qed.

End Where.

Lemma project_files_below B pp f : f ∈ project_files B pp → f ≠ B.
Proof.
  unfold project_files. intros Hf E.
  repeat (apply elem_of_cons in Hf as [->|Hf]); try (by apply elem_of_nil in Hf);
    apply (f_equal length) in E; rewrite length_app in E; cbn in E; lia.
Qed.

Section Places.
Variable cwd : list string.
Variables (name : string) (output_dir : Path).
Hypothesis Hplain : plain output_dir.
Hypothesis Hrel : Pathlib.root_of name = "".
Hypothesis Hdd : ".." ∉ Pathlib.parts_of name.

Ltac in_list :=
  repeat first [ apply list_elem_of_here | apply list_elem_of_further ].


Lemma plain_project_dir : plain (project_dir name output_dir).
Proof.
  rewrite project_dir_relative by done. unfold plain in *. cbn. no_dotdot.
Qed.

Lemma package_name_plain : ".." ∉ Pathlib.parts_of (package_name name).
Proof. intros H. by apply Hdd, package_name_dotdot. Qed.

Lemma src_dir_child :
  src_dir name output_dir =
    mkPath (root (project_dir name output_dir))
      (parts (project_dir name output_dir)
         ++ "src" :: Pathlib.parts_of (package_name name)).
Proof. rewrite src_dir_relative, project_dir_relative by done. done. Qed.

Lemma plain_src_dir : plain (src_dir name output_dir).
Proof.
  pose proof package_name_plain. pose proof plain_project_dir as HP.
  rewrite src_dir_child. unfold plain in *. cbn. no_dotdot.
Qed.

Lemma canon_src_dir :
  canon cwd (src_dir name output_dir)
    = canon cwd (project_dir name output_dir)
        ++ "src" :: Pathlib.parts_of (package_name name).
Proof. rewrite src_dir_child. unfold canon. cbn. by rewrite app_assoc. Qed.

(** The places of the eight directories and of their markers. *)
Lemma directories_places :
  let B := canon cwd (project_dir name output_dir) in
  let pp := Pathlib.parts_of (package_name name) in
  Forall (λ d, plain d ∧ canon cwd d ∈ project_dirs B pp ∧
               canon cwd d ++ ["__init__.py"] ∈ project_files B pp)
    (directories name output_dir).
Proof.
  cbv zeta. pose proof plain_project_dir as HP. pose proof plain_src_dir as HS.
  unfold directories. cbv zeta. rewrite !div_child by reflexivity.
  repeat first [ apply Forall_nil_2
               | apply Forall_cons_2; [split; [|split]|] ];
    try (by repeat apply plain_child);
    rewrite ?canon_child, ?canon_src_dir, <- ?app_assoc; cbn [app];
    unfold project_dirs, project_files; in_list.
Qed.

(** The places of the nine files. *)
Lemma files_places :
  let B := canon cwd (project_dir name output_dir) in
  let pp := Pathlib.parts_of (package_name name) in
  Forall (λ w : Path * string, plain w.1 ∧ canon cwd w.1 ∈ project_files B pp)
    (files name output_dir).
Proof.
  cbv zeta. pose proof plain_project_dir as HP. pose proof plain_src_dir as HS.
  rewrite files_children. cbv zeta.
  repeat first [ apply Forall_nil_2
               | apply Forall_cons_2; [split|] ]; cbn [fst];
    try (by repeat apply plain_child);
    rewrite ?canon_child, ?canon_src_dir, <- ?app_assoc; cbn [app];
    unfold project_files; in_list.
Qed.

(** What a run can have changed, completed or not: directories made on
    the way to one of the eight, package markers, and the nine files. *)
Lemma create_project_where fs :
  ∃ fs0,
    loop_made cwd (directories name output_dir) fs fs0 ∧
    writes_made cwd (files name output_dir) fs0
      (create_project cwd name output_dir fs).1.
Proof.
  destruct (create_project cwd name output_dir fs) as [fs' r] eqn:E. cbn [fst].
  rewrite create_project_steps in E.
  apply bind_inv in E as (fs0 & r0 & Hloop & Hk).
  exists fs0. split.
  - eapply for_each_where; [|done].
    eapply Forall_impl; [apply directories_places|]. by intros d [? _].
  - destruct r0 as [[]|e].
    + eapply write_all_where; [|done].
      eapply Forall_impl; [apply files_places|]. by intros w [? _].
    + destruct Hk as [-> _]. intros q. by left.
Qed.

End Places.

(* ===================================================================== *)
(** * Properties of runs with a relative name                             *)
(* ===================================================================== *)

Section Contained.
Variable cwd : list string.

Ltac in_list :=
  repeat first [ apply list_elem_of_here | apply list_elem_of_further ].


(** X8: with a relative name free of double dots (and an output directory
    free of them), a run, completed or not, changes nothing outside the
    project directory: a place is as it was, or it lies strictly under the
    project directory, or it is the project directory or a directory above
    it that was missing and has been made. *)
Theorem nothing_outside_project_dir name output_dir fs q :
  plain output_dir →
  Pathlib.root_of name = "" → ".." ∉ Pathlib.parts_of name →
  let B := canon cwd (project_dir name output_dir) in
  let fs' := (create_project cwd name output_dir fs).1 in
  fs' !! q = fs !! q ∨
  (B `prefix_of` q ∧ q ≠ B) ∨
  (q `prefix_of` B ∧ fs !! q = None ∧ fs' !! q = Some Dir).
Proof.
  intros Hplain Hrel Hdd B fs'.
  destruct (create_project_where cwd name output_dir Hplain Hrel Hdd fs)
    as (fs0 & Hloop & Hw).
  fold fs' in Hw.
  pose proof (directories_places cwd name output_dir Hplain Hrel Hdd) as HD.
  pose proof (files_places cwd name output_dir Hplain Hrel Hdd) as HF.
  cbv zeta in HD, HF. fold B in HD, HF.
  rewrite Forall_forall in HD. rewrite Forall_forall in HF.
  destruct (Hw q) as [E|(_ & w & Hin & ->)].
  2:{ right; left. destruct (HF w Hin) as [_ Hf].
      split; [by eapply project_files_under|by eapply project_files_below]. }
  destruct (Hloop q) as [E0|(N & d & Hd & [[E1 Hpre]|(E1 & -> & _)])].
  - left. congruence.
  - destruct (HD d Hd) as (_ & HinD & _). apply project_dirs_under in HinD.
    destruct (prefix_weak_total _ _ _ Hpre HinD) as [Hup|Hdown].
    + right; right. split; [done|]. split; [done|congruence].
    + destruct (decide (q = B)) as [->|Hne].
      * right; right. split; [done|]. split; [done|congruence].
      * right; left. done.
  - right; left. destruct (HD d Hd) as (_ & _ & HinF).
    split; [by eapply project_files_under|by eapply project_files_below].
Qed.




End Contained.


(* ===================================================================== *)
(** * Runs on concrete file systems                                       *)
(* ===================================================================== *)

Ltac by_compute := apply (bool_decide_unpack _); vm_compute; exact I.

(** A run whose result is a value, with the state it leaves. *)
Lemma run_Ok {A} (m : M A) fs a : (m fs).2 = Ok a → m fs = ((m fs).1, Ok a).
Proof. destruct (m fs) as [fs' r]. cbn. by intros ->. Qed.


(** C1, where the code departs from it: with the output directory
    [/home/u/src] the loop's test, whether the text [src] occurs in the
    path of the directory, holds for [configs] and [scripts] too, and both
    receive a package marker although they lie outside the source tree of
    the project. *)
Theorem marker_outside_source_tree :
  let output_dir := Pathlib.of_string "/home/u/src" in
  let run := create_project [] "widget" output_dir home_src in
  Str.contains "src" (Pathlib.str (project_dir "widget" output_dir // "configs")) = true ∧
  run.2 = Ok tt ∧
  read_text [] run.1 (project_dir "widget" output_dir // "configs" // "__init__.py")
    = Some PACKAGE_MARKER ∧
  read_text [] run.1 (project_dir "widget" output_dir // "scripts" // "__init__.py")
    = Some PACKAGE_MARKER.
Proof. vm_compute. repeat split; reflexivity. Qed.





Lemma manifest_injective_witness :
  "alpha" ≠ "beta" ∧ render_pyproject "alpha" ≠ render_pyproject "beta".
Proof.
  split; [done|]. apply (manifest_injective "alpha" "beta"). done.
Defined.

Lemma widget_example_witness :
  let run := create_project [] "widget" (Pathlib.of_string "/tmp/x") tmp_x in
  run.2 = Ok tt ∧
  ∃ manifest marker,
    read_text [] run.1 (Pathlib.of_string "/tmp/x/widget/pyproject.toml")
      = Some manifest ∧
    Str.contains (Str.py "name = `widget`") manifest = true ∧
    read_text [] run.1 (Pathlib.of_string "/tmp/x/widget/src/widget/__init__.py")
      = Some marker ∧
    Str.contains "widget package" marker = true.
Proof.
  cbv zeta.
  assert ((create_project [] "widget" (Pathlib.of_string "/tmp/x") tmp_x).2 = Ok tt) as Hres
    by (vm_compute; reflexivity).
  pose proof (run_Ok _ _ _ Hres) as Hrun.
  split; [exact Hres|]. exact (widget_example [] tmp_x _ Hrun).
Defined.


Lemma subpackage_marker_kept_witness :
  let marker := src_dir "widget" (Pathlib.of_string "/tmp/x") // "entities" // "__init__.py" in
  "entities" ∈ subpackages ∧
  read_text [] tmp_x_edited marker = Some "edited by hand" ∧
  read_text []
    (create_project [] "widget" (Pathlib.of_string "/tmp/x") tmp_x_edited).1 marker
    = Some "edited by hand".
Proof.
  cbv zeta.
  assert ("entities" ∈ subpackages) as Hsub by by_compute.
  split; [exact Hsub|]. split; [vm_compute; reflexivity|].
  apply (subpackage_marker_kept [] "widget" (Pathlib.of_string "/tmp/x")
           tmp_x_edited "entities" "edited by hand" Hsub).
  vm_compute; reflexivity.
Defined.

Lemma makefile_and_gitignore_fixed_witness :
  let output_dir := Pathlib.of_string "/tmp/x" in
  let run := create_project [] "widget" output_dir tmp_x_edited in
  run.2 = Ok tt ∧
  read_text [] run.1 (project_dir "widget" output_dir // "Makefile")
    = Some MAKEFILE_TEMPLATE ∧
  read_text [] run.1 (project_dir "widget" output_dir // ".gitignore")
    = Some GITIGNORE_TEMPLATE.
Proof.
  cbv zeta.
  assert ((create_project [] "widget" (Pathlib.of_string "/tmp/x") tmp_x_edited).2 = Ok tt) as Hres
    by (vm_compute; reflexivity).
  pose proof (run_Ok _ _ _ Hres) as Hrun.
  split; [exact Hres|].
  exact (makefile_and_gitignore_fixed [] "widget" (Pathlib.of_string "/tmp/x")
           tmp_x_edited _ Hrun).
Defined.

Lemma create_project_twice_witness :
  let output_dir := Pathlib.of_string "/tmp/x" in
  let run := create_project [] "my-project" output_dir tmp_x in
  run.2 = Ok tt ∧
  ∃ fs2, create_project [] "my-project" output_dir run.1 = (fs2, Ok tt) ∧
         read_text [] run.1 (project_dir "my-project" output_dir // "pyproject.toml")
           = Some (render_pyproject "my-project") ∧
         read_text [] fs2 (project_dir "my-project" output_dir // "pyproject.toml")
           = Some (render_pyproject "my-project").
Proof.
  cbv zeta.
  assert ((create_project [] "my-project" (Pathlib.of_string "/tmp/x") tmp_x).2 = Ok tt) as Hres
    by (vm_compute; reflexivity).
  pose proof (run_Ok _ _ _ Hres) as Hrun.
  split; [exact Hres|].
  destruct (create_project_twice [] "my-project" (Pathlib.of_string "/tmp/x")
              tmp_x _ Hrun) as (fs2 & Hrun2 & Hfiles).
  exists fs2. split; [exact Hrun2|].
  apply Forall_cons in Hfiles as [Hfile _]. exact Hfile.
Defined.


Lemma create_project_keeps_entries_witness :
  tmp_x_edited !! ["tmp"; "x"; "widget"; "Makefile"] = Some (File "all:") ∧
  ∃ n', (create_project [] "widget" (Pathlib.of_string "/tmp/x") tmp_x_edited).1
          !! ["tmp"; "x"; "widget"; "Makefile"] = Some n' ∧
        kind n' = kind (File "all:").
Proof.
  assert (tmp_x_edited !! ["tmp"; "x"; "widget"; "Makefile"] = Some (File "all:"))
    as H by (vm_compute; reflexivity).
  split; [exact H|].
  exact (create_project_keeps_entries [] "widget" (Pathlib.of_string "/tmp/x")
           tmp_x_edited _ _ H).
Defined.

Lemma second_run_changes_nothing_witness :
  let output_dir := Pathlib.of_string "/tmp/x" in
  let run := create_project [] "my-project" output_dir tmp_x in
  run.2 = Ok tt ∧
  create_project [] "my-project" output_dir run.1 = (run.1, Ok tt).
Proof.
  cbv zeta.
  assert ((create_project [] "my-project" (Pathlib.of_string "/tmp/x") tmp_x).2 = Ok tt)
    as Hres by (vm_compute; reflexivity).
  pose proof (run_Ok _ _ _ Hres) as Hrun.
  split; [exact Hres|].
  exact (second_run_changes_nothing [] "my-project" (Pathlib.of_string "/tmp/x")
           tmp_x _ Hrun).
Defined.

Lemma output_file_stops_the_run_witness :
  read_text [] tmp_x_file (Pathlib.of_string "/tmp/x") = Some "notes" ∧
  create_project [] "widget" (Pathlib.of_string "/tmp/x") tmp_x_file
    = (tmp_x_file, Raise NotADirectoryError).
Proof.
  assert (read_text [] tmp_x_file (Pathlib.of_string "/tmp/x") = Some "notes")
    as H by (vm_compute; reflexivity).
  split; [exact H|].
  apply (output_file_stops_the_run [] "widget" (Pathlib.of_string "/tmp/x")
           tmp_x_file "notes").
  - by_compute.
  - reflexivity.
  - reflexivity.
  - exact H.
Defined.

Lemma configs_file_stops_the_run_witness :
  let output_dir := Pathlib.of_string "/tmp/x" in
  read_text [] tmp_x_configs_file (project_dir "widget" output_dir // "configs")
    = Some "key = value" ∧
  create_project [] "widget" output_dir tmp_x_configs_file
    = (tmp_x_configs_file, Raise FileExistsError).
Proof.
  cbv zeta.
  assert (read_text [] tmp_x_configs_file
            (project_dir "widget" (Pathlib.of_string "/tmp/x") // "configs")
          = Some "key = value") as H by (vm_compute; reflexivity).
  split; [exact H|].
  exact (configs_file_stops_the_run [] "widget" (Pathlib.of_string "/tmp/x")
           tmp_x_configs_file _ H).
Defined.

Lemma directory_stops_the_run_witness :
  let output_dir := Pathlib.of_string "/tmp/x" in
  let makefile := project_dir "widget" output_dir // "Makefile" in
  is_dir [] tmp_x_makefile_dir makefile = true ∧
  ∃ e, (create_project [] "widget" output_dir tmp_x_makefile_dir).2 = Raise e ∧
       is_dir [] (create_project [] "widget" output_dir tmp_x_makefile_dir).1 makefile
         = true.
Proof.
  cbv zeta.
  assert (is_dir [] tmp_x_makefile_dir
            (project_dir "widget" (Pathlib.of_string "/tmp/x") // "Makefile") = true)
    as H by (vm_compute; reflexivity).
  split; [exact H|].
  apply (directory_stops_the_run [] "widget" (Pathlib.of_string "/tmp/x")
           tmp_x_makefile_dir
           (project_dir "widget" (Pathlib.of_string "/tmp/x") // "Makefile",
            MAKEFILE_TEMPLATE)).
  - unfold files. cbv zeta. apply list_elem_of_further, list_elem_of_here.
  - exact H.
Defined.


Lemma nothing_outside_project_dir_witness :
  let output_dir := Pathlib.of_string "/tmp/x" in
  let B := canon [] (project_dir "widget" output_dir) in
  let fs' := (create_project [] "widget" output_dir tmp_x_edited).1 in
  let q := ["tmp"; "x"] in
  fs' !! q = tmp_x_edited !! q ∨
  (B `prefix_of` q ∧ q ≠ B) ∨
  (q `prefix_of` B ∧ tmp_x_edited !! q = None ∧ fs' !! q = Some Dir).
Proof.
  cbv zeta.
  apply (nothing_outside_project_dir [] "widget" (Pathlib.of_string "/tmp/x")
           tmp_x_edited ["tmp"; "x"]).
  - by_compute.
  - reflexivity.
  - by_compute.
Defined.

Lemma src_dir_layout_witness :
  Pathlib.root_of "tools/my-app" = "" ∧
  parts (src_dir "tools/my-app" (Pathlib.of_string "/tmp/x"))
    = ["tmp"; "x"; "tools"; "my-app"; "src"; "tools"; "my_app"].
Proof.
  split; [reflexivity|].
  destruct (src_dir_layout "tools/my-app" (Pathlib.of_string "/tmp/x") eq_refl)
    as [_ H].
  rewrite H. vm_compute. reflexivity.
Defined.

Lemma absolute_name_discards_output_dir_witness :
  Pathlib.root_of "/srv/my-app" ≠ "" ∧
  project_dir "/srv/my-app" (Pathlib.of_string "/tmp/x")
    = Pathlib.of_string "/srv/my-app" ∧
  src_dir "/srv/my-app" (Pathlib.of_string "/tmp/x")
    = Pathlib.of_string (package_name "/srv/my-app") ∧
  create_project [] "/srv/my-app" (Pathlib.of_string "/tmp/x") tmp_x
    = create_project [] "/srv/my-app" (Pathlib.of_string "/home/u/src") tmp_x.
Proof.
  assert (Pathlib.root_of "/srv/my-app" ≠ "") as H by (vm_compute; discriminate).
  split; [exact H|].
  exact (absolute_name_discards_output_dir [] "/srv/my-app"
           (Pathlib.of_string "/tmp/x") (Pathlib.of_string "/home/u/src") tmp_x H).
Defined.


Lemma eight_directories_made_witness :
  let output_dir := Pathlib.of_string "/tmp/x" in
  let run := create_project [] "my-project" output_dir tmp_x in
  run.2 = Ok tt ∧
  is_dir [] run.1 (src_dir "my-project" output_dir // "infrastructure") = true.
Proof.
  cbv zeta.
  assert ((create_project [] "my-project" (Pathlib.of_string "/tmp/x") tmp_x).2 = Ok tt)
    as Hres by (vm_compute; reflexivity).
  pose proof (run_Ok _ _ _ Hres) as Hrun.
  split; [exact Hres|].
  pose proof (eight_directories_made [] "my-project" (Pathlib.of_string "/tmp/x")
                tmp_x _ Hrun) as Hd.
  cbv zeta in Hd. rewrite !Forall_cons in Hd. tauto.
Defined.

